(** * Thermal dashboard controller: static/js/main.js

    The page keeps two module-level variables, [currentDatasetIndex] and
    [totalDatasets], a handful of DOM nodes (the counter label, the two
    paging buttons, the filename and the three statistics labels) and six
    Plotly charts.  Its code runs as event handlers, each to completion:
    the two button clicks, the 30 second timer, and the resumption of an
    asynchronous function when the HTTP answer it awaits arrives.

    The embedding follows that structure.  A [page] holds the variables,
    the document, the console and the asynchronous calls that are
    suspended on a fetch; the functions of main.js are computations in a
    state-and-exception monad over [page]; [step] dispatches one event.

    Numbers of the JSON payloads are IEEE doubles in the browser.  They
    are only copied into chart descriptors and formatted by
    [Number.prototype.toFixed], so their type and that formatter are
    parameters of the development.  The two counters are integers ([Z]).
    Colours, fonts, margins, colour-bar captions and the [responsive]
    flag of the chart descriptors are presentation constants and are left
    out of [figure]. *)

From Stdlib Require Import ZArith Lia.
From stdpp Require Import base option list strings pretty gmap.

Open Scope Z_scope.

Section Dashboard.

(** JSON numbers and [x.toFixed(digits)]. *)
Variable number : Type.
Variable toFixed : number -> Z -> string.

(** ** Payloads of the data API *)

Record SummaryPoint := {
  timestamp : string;
  max_temp : number;
  min_temp : number
}.

Definition matrix : Type := list (list number).

Record Stats := { min : number; max : number; avg : number }.

Record Matrices := {
  temperature : matrix;
  gradient_magnitude : matrix;
  hot_roi : matrix
}.

Record DetailRecord := {
  filename : string;
  stats : Stats;
  matrices : Matrices
}.

(** What [await fetch(url)] followed by [await response.json()] can
    give: the fetch promise rejects, or it resolves with a status and a
    body that parses ([Some]) or does not ([None]).  A body that parses
    has the shape the data API documents for the endpoint. *)
Inductive fetch_outcome (A : Type) : Type :=
| rejected
| resolved (status : Z) (body : option A).
Arguments rejected {A}.
Arguments resolved {A} status body.

(** [response.ok]: the status is in the range 200-299. *)
Definition response_ok (status : Z) : bool :=
  (200 <=? status) && (status <=? 299).

(** Values that reach a [catch] clause. *)
Inductive js_error : Type :=
| TypeError_fetch
| Error (message : string)
| SyntaxError_json.

(** ** Chart descriptors handed to Plotly *)

Inductive colorscale : Type := tempColorScale | Viridis | roiColorScale.

Inductive trace : Type :=
| scatter (x : list string) (y : list number) (name : string)
| surface (z : matrix) (cs : colorscale) (cmin cmax : number)
| heatmap (z : matrix) (cs : colorscale) (crange : option (number * number))
| histogram (x : list number).

Record layout := {
  title : option string;
  xaxis_title : option string;
  yaxis_title : option string;
  yaxis_reversed : bool
}.

Record figure := { fig_data : list trace; fig_layout : layout }.

(** ** The page *)

Record document := {
  counterEl : string;          (* #dataset-counter, textContent *)
  btnPrev_disabled : bool;     (* #btn-prev, disabled *)
  btnNext_disabled : bool;     (* #btn-next, disabled *)
  filenameEl : string;         (* #dataset-filename, textContent *)
  stats_min : string;          (* #stats-min, textContent *)
  stats_max : string;          (* #stats-max, textContent *)
  stats_avg : string;          (* #stats-avg, textContent *)
  plots : gmap string figure   (* chart drawn in each plot element *)
}.

(** An asynchronous call suspended on its fetch.  [summary_fetch true]
    is the call of [updateTemporalPlot] that [initialize] awaits. *)
Inductive pending_call : Type :=
| summary_fetch (from_initialize : bool)
| detail_fetch (index : Z).

#[global] Instance pending_call_eq_dec : EqDecision pending_call.
Proof. solve_decision. Defined.

Definition url (c : pending_call) : string :=
  match c with
  | summary_fetch _ => "/api/data/summary"
  | detail_fetch index => "/api/data/detail/" +:+ pretty index
  end.

Record page := {
  currentDatasetIndex : Z;
  totalDatasets : Z;
  dom : document;
  console : list (string * js_error);
  pending : list pending_call
}.

(** ** State and exceptions

    A statement either completes or throws; what it wrote to the page
    before throwing stays written. *)

Definition M (A : Type) : Type := page -> (js_error + A) * page.

#[local] Instance M_ret : MRet M := fun A x p => (inr x, p).

#[local] Instance M_bind : MBind M := fun A B f m p =>
  match m p with
  | (inr x, p') => f x p'
  | (inl e, p') => (inl e, p')
  end.

Definition throw {A} (e : js_error) : M A := fun p => (inl e, p).

Definition try_catch (body : M unit) (handler : js_error -> M unit) : M unit :=
  fun p =>
    match body p with
    | (inr tt, p') => (inr tt, p')
    | (inl e, p') => handler e p'
    end.

Definition gets {A} (f : page -> A) : M A := fun p => (inr (f p), p).

Definition modify (f : page -> page) : M unit := fun p => (inr tt, f p).

(** The page a handler leaves behind. *)
Definition run {A} (m : M A) (p : page) : page := snd (m p).

(** ** Assignments *)

Definition set_currentDatasetIndex (i : Z) : M unit :=
  modify (fun p =>
    {| currentDatasetIndex := i; totalDatasets := totalDatasets p;
       dom := dom p; console := console p; pending := pending p |}).

Definition set_totalDatasets (n : Z) : M unit :=
  modify (fun p =>
    {| currentDatasetIndex := currentDatasetIndex p; totalDatasets := n;
       dom := dom p; console := console p; pending := pending p |}).

Definition modify_dom (f : document -> document) : M unit :=
  modify (fun p =>
    {| currentDatasetIndex := currentDatasetIndex p;
       totalDatasets := totalDatasets p;
       dom := f (dom p); console := console p; pending := pending p |}).

Definition set_counterEl (s : string) : M unit :=
  modify_dom (fun d =>
    {| counterEl := s; btnPrev_disabled := btnPrev_disabled d;
       btnNext_disabled := btnNext_disabled d; filenameEl := filenameEl d;
       stats_min := stats_min d; stats_max := stats_max d;
       stats_avg := stats_avg d; plots := plots d |}).

Definition set_btnPrev_disabled (b : bool) : M unit :=
  modify_dom (fun d =>
    {| counterEl := counterEl d; btnPrev_disabled := b;
       btnNext_disabled := btnNext_disabled d; filenameEl := filenameEl d;
       stats_min := stats_min d; stats_max := stats_max d;
       stats_avg := stats_avg d; plots := plots d |}).

Definition set_btnNext_disabled (b : bool) : M unit :=
  modify_dom (fun d =>
    {| counterEl := counterEl d; btnPrev_disabled := btnPrev_disabled d;
       btnNext_disabled := b; filenameEl := filenameEl d;
       stats_min := stats_min d; stats_max := stats_max d;
       stats_avg := stats_avg d; plots := plots d |}).

Definition set_filenameEl (s : string) : M unit :=
  modify_dom (fun d =>
    {| counterEl := counterEl d; btnPrev_disabled := btnPrev_disabled d;
       btnNext_disabled := btnNext_disabled d; filenameEl := s;
       stats_min := stats_min d; stats_max := stats_max d;
       stats_avg := stats_avg d; plots := plots d |}).

Definition set_stats_min (s : string) : M unit :=
  modify_dom (fun d =>
    {| counterEl := counterEl d; btnPrev_disabled := btnPrev_disabled d;
       btnNext_disabled := btnNext_disabled d; filenameEl := filenameEl d;
       stats_min := s; stats_max := stats_max d;
       stats_avg := stats_avg d; plots := plots d |}).

Definition set_stats_max (s : string) : M unit :=
  modify_dom (fun d =>
    {| counterEl := counterEl d; btnPrev_disabled := btnPrev_disabled d;
       btnNext_disabled := btnNext_disabled d; filenameEl := filenameEl d;
       stats_min := stats_min d; stats_max := s;
       stats_avg := stats_avg d; plots := plots d |}).

Definition set_stats_avg (s : string) : M unit :=
  modify_dom (fun d =>
    {| counterEl := counterEl d; btnPrev_disabled := btnPrev_disabled d;
       btnNext_disabled := btnNext_disabled d; filenameEl := filenameEl d;
       stats_min := stats_min d; stats_max := stats_max d;
       stats_avg := s; plots := plots d |}).

(** [Plotly.newPlot(id, ...)] and [Plotly.react(id, ...)]: the element
    shows the given figure, replacing what it showed. *)
Definition draw (id : string) (f : figure) : M unit :=
  modify_dom (fun d =>
    {| counterEl := counterEl d; btnPrev_disabled := btnPrev_disabled d;
       btnNext_disabled := btnNext_disabled d; filenameEl := filenameEl d;
       stats_min := stats_min d; stats_max := stats_max d;
       stats_avg := stats_avg d; plots := <[id := f]> (plots d) |}).

Definition Plotly_newPlot := draw.
Definition Plotly_react := draw.

Definition console_error (msg : string) (e : js_error) : M unit :=
  modify (fun p =>
    {| currentDatasetIndex := currentDatasetIndex p;
       totalDatasets := totalDatasets p; dom := dom p;
       console := console p ++ [(msg, e)]; pending := pending p |}).

(** [await fetch(...)]: the call is parked until its answer arrives. *)
Definition suspend (c : pending_call) : M unit :=
  modify (fun p =>
    {| currentDatasetIndex := currentDatasetIndex p;
       totalDatasets := totalDatasets p; dom := dom p;
       console := console p; pending := pending p ++ [c] |}).

(** The three lines that open both [try] blocks, once the answer is
    there: the awaited fetch, the [response.ok] test, the awaited
    [response.json()].  No page state is read or written between the
    two awaits, so they are taken in one step. *)
Definition receive {A} (r : fetch_outcome A) (not_ok : string) : M A :=
  match r with
  | rejected => throw TypeError_fetch
  | resolved status body =>
      if negb (response_ok status) then throw (Error not_ok)
      else match body with
           | None => throw SyntaxError_json
           | Some data => mret data
           end
  end.

(** ** updateControls *)

Definition updateControls : M unit :=
  total ← gets totalDatasets;
  index ← gets currentDatasetIndex;
  set_counterEl (if bool_decide (total > 0)
                 then pretty (index + 1) +:+ " / " +:+ pretty total
                 else "0 / 0");;
  set_btnPrev_disabled (bool_decide (index <= 0));;
  set_btnNext_disabled (bool_decide (index >= total - 1)).

(** ** updateTemporalPlot *)

Definition temporal_figure (summaryData : list SummaryPoint) : figure :=
  let timestamps := timestamp <$> summaryData in
  let maxTemps := max_temp <$> summaryData in
  let minTemps := min_temp <$> summaryData in
  let traceMax := scatter timestamps maxTemps "Temp. Máxima" in
  let traceMin := scatter timestamps minTemps "Temp. Mínima" in
  {| fig_data := [traceMax; traceMin];
     fig_layout := {| title := None;
                      xaxis_title := Some "Tiempo";
                      yaxis_title := Some "Temperatura (°C)";
                      yaxis_reversed := false |} |}.

(** Up to the first await. *)
Definition updateTemporalPlot (from_initialize : bool) : M unit :=
  suspend (summary_fetch from_initialize).

(** From the first await on. *)
Definition updateTemporalPlot_resume
    (r : fetch_outcome (list SummaryPoint)) : M unit :=
  try_catch
    (summaryData ← receive r "Error al cargar datos de resumen";
     set_totalDatasets (Z.of_nat (length summaryData));;
     total ← gets totalDatasets;
     if bool_decide (total = 0) then mret tt
     else
       Plotly_newPlot "temporal-plot" (temporal_figure summaryData);;
       updateControls)
    (fun error => console_error "Error en updateTemporalPlot:" error).

(** ** updateDetailPlots *)

Definition figure_3d (detailData : DetailRecord) : figure :=
  {| fig_data := [surface (temperature (matrices detailData)) tempColorScale
                    (min (stats detailData)) (max (stats detailData))];
     fig_layout := {| title := Some "Superficie de Temperatura 3D";
                      xaxis_title := None; yaxis_title := None;
                      yaxis_reversed := false |} |}.

Definition figure_2d (detailData : DetailRecord) : figure :=
  {| fig_data := [heatmap (temperature (matrices detailData)) tempColorScale
                    (Some (min (stats detailData), max (stats detailData)))];
     fig_layout := {| title := Some "Mapa de Calor 2D";
                      xaxis_title := None; yaxis_title := None;
                      yaxis_reversed := true |} |}.

Definition figure_histogram (detailData : DetailRecord) : figure :=
  let flatTemps := concat (temperature (matrices detailData)) in
  {| fig_data := [histogram flatTemps];
     fig_layout := {| title := Some "Distribución";
                      xaxis_title := Some "Temperatura (°C)";
                      yaxis_title := Some "Frecuencia";
                      yaxis_reversed := false |} |}.

Definition figure_gradient (detailData : DetailRecord) : figure :=
  {| fig_data := [heatmap (gradient_magnitude (matrices detailData))
                    Viridis None];
     fig_layout := {| title := Some "Magnitud del Gradiente";
                      xaxis_title := None; yaxis_title := None;
                      yaxis_reversed := true |} |}.

Definition figure_roi (detailData : DetailRecord) : figure :=
  {| fig_data := [heatmap (hot_roi (matrices detailData)) roiColorScale None];
     fig_layout := {| title := Some "Zonas Calientes (>95%)";
                      xaxis_title := None; yaxis_title := None;
                      yaxis_reversed := true |} |}.

(** Up to the first await. *)
Definition updateDetailPlots (index : Z) : M unit :=
  suspend (detail_fetch index).

(** From the first await on. *)
Definition updateDetailPlots_resume
    (index : Z) (r : fetch_outcome DetailRecord) : M unit :=
  try_catch
    (detailData ← receive r ("Dataset " +:+ pretty index +:+ " no encontrado");
     set_filenameEl (filename detailData);;
     set_stats_min (toFixed (min (stats detailData)) 2 +:+ " °C");;
     set_stats_max (toFixed (max (stats detailData)) 2 +:+ " °C");;
     set_stats_avg (toFixed (avg (stats detailData)) 2 +:+ " °C");;
     Plotly_react "plot-3d" (figure_3d detailData);;
     Plotly_react "plot-2d" (figure_2d detailData);;
     Plotly_react "histogram-plot" (figure_histogram detailData);;
     Plotly_react "gradient-plot" (figure_gradient detailData);;
     Plotly_react "roi-plot" (figure_roi detailData))
    (fun error => console_error "Error en updateDetailPlots:" error).

(** ** The click handlers *)

Definition btnPrev_click : M unit :=
  index ← gets currentDatasetIndex;
  if bool_decide (index > 0) then
    set_currentDatasetIndex (index - 1);;
    updateControls;;
    index' ← gets currentDatasetIndex;
    updateDetailPlots index'
  else mret tt.

Definition btnNext_click : M unit :=
  index ← gets currentDatasetIndex;
  total ← gets totalDatasets;
  if bool_decide (index < total - 1) then
    set_currentDatasetIndex (index + 1);;
    updateControls;;
    index' ← gets currentDatasetIndex;
    updateDetailPlots index'
  else mret tt.

(** ** initialize *)

(** Up to [await updateTemporalPlot()]. *)
Definition initialize : M unit := updateTemporalPlot true.

(** After it. *)
Definition initialize_resume : M unit :=
  total ← gets totalDatasets;
  (if bool_decide (total > 0) then
     index ← gets currentDatasetIndex;
     updateDetailPlots index
   else mret tt);;
  updateControls.

(** ** The event loop *)

Inductive event : Type :=
| click_btnPrev
| click_btnNext
| interval_fires
| summary_arrives (from_initialize : bool)
                  (r : fetch_outcome (list SummaryPoint))
| detail_arrives (index : Z) (r : fetch_outcome DetailRecord).

Fixpoint remove_first (c : pending_call) (l : list pending_call)
    : list pending_call :=
  match l with
  | [] => []
  | c' :: l' => if decide (c = c') then l' else c' :: remove_first c l'
  end.

Definition resume_call (c : pending_call) (p : page) : page :=
  {| currentDatasetIndex := currentDatasetIndex p;
     totalDatasets := totalDatasets p; dom := dom p;
     console := console p; pending := remove_first c (pending p) |}.

(** One event.  A disabled button dispatches no click, and an answer
    arrives only for a call that is suspended on it; elsewhere the
    event cannot happen ([None]). *)
Definition step (e : event) (p : page) : option page :=
  match e with
  | click_btnPrev =>
      if btnPrev_disabled (dom p) then None else Some (run btnPrev_click p)
  | click_btnNext =>
      if btnNext_disabled (dom p) then None else Some (run btnNext_click p)
  | interval_fires => Some (run (updateTemporalPlot false) p)
  | summary_arrives from_initialize r =>
      if decide (summary_fetch from_initialize ∈ pending p) then
        Some (run (updateTemporalPlot_resume r;;
                   if from_initialize then initialize_resume else mret tt)
                  (resume_call (summary_fetch from_initialize) p))
      else None
  | detail_arrives index r =>
      if decide (detail_fetch index ∈ pending p) then
        Some (run (updateDetailPlots_resume index r)
                  (resume_call (detail_fetch index) p))
      else None
  end.

(** A run: the events happen in order, each one possible where it
    happens and accepted by [allowed]. *)
Fixpoint run_events (allowed : event -> page -> bool)
    (evs : list event) (p : page) : option page :=
  match evs with
  | [] => Some p
  | e :: evs' =>
      if allowed e p then
        match step e p with
        | Some p' => run_events allowed evs' p'
        | None => None
        end
      else None
  end.

(** The page once the DOMContentLoaded handler has returned:
    [initialize()] is suspended on the summary fetch and the timer is
    armed.  The markup is not part of main.js, so the document the
    handler finds is an argument. *)
Definition boot (html : document) : page :=
  run initialize
    {| currentDatasetIndex := 0; totalDatasets := 0; dom := html;
       console := []; pending := [] |}.

Definition any_event (e : event) (p : page) : bool := true.

Definition reachable (html : document) (p : page) : Prop :=
  exists evs, run_events any_event evs (boot html) = Some p.

(** ** Notions the properties are stated with *)

(** The NavigatorState invariant of the specification. *)
Definition navigator_invariant (p : page) : Prop :=
  (totalDatasets p > 0 -> 0 <= currentDatasetIndex p < totalDatasets p) /\
  (totalDatasets p = 0 -> currentDatasetIndex p = 0).

#[global] Instance navigator_invariant_dec p : Decision (navigator_invariant p).
Proof. unfold navigator_invariant. apply _. Defined.

(** An accepted summary keeps the index in range: its length is above
    the index, or both are 0. *)
Definition covers_index (e : event) (p : page) : bool :=
  match e with
  | summary_arrives _ (resolved status (Some summaryData)) =>
      let n := Z.of_nat (length summaryData) in
      negb (response_ok status)
      || bool_decide (currentDatasetIndex p < n)
      || bool_decide (currentDatasetIndex p = 0 /\ n = 0)
  | _ => true
  end.

(** The fetch failed: network error, non-success status, or a body
    that does not parse. *)
Definition failed {A} (r : fetch_outcome A) : Prop :=
  match r with
  | rejected => True
  | resolved status body => response_ok status = false \/ body = None
  end.

(** The paging controls as the document shows them. *)
Definition controls (d : document) : string * bool * bool :=
  (counterEl d, btnPrev_disabled d, btnNext_disabled d).

(** The detail view shows [detailData]: filename, statistics and the
    five charts are the ones [updateDetailPlots] draws for it. *)
Definition shows (d : document) (detailData : DetailRecord) : Prop :=
  filenameEl d = filename detailData /\
  stats_min d = toFixed (min (stats detailData)) 2 +:+ " °C" /\
  stats_max d = toFixed (max (stats detailData)) 2 +:+ " °C" /\
  stats_avg d = toFixed (avg (stats detailData)) 2 +:+ " °C" /\
  plots d !! "plot-3d" = Some (figure_3d detailData) /\
  plots d !! "plot-2d" = Some (figure_2d detailData) /\
  plots d !! "histogram-plot" = Some (figure_histogram detailData) /\
  plots d !! "gradient-plot" = Some (figure_gradient detailData) /\
  plots d !! "roi-plot" = Some (figure_roi detailData).

(** The detail view as the document shows it: the filename, the three
    statistics labels and the five detail charts. *)
Definition detail_view (d : document)
    : string * string * string * string * list (option figure) :=
  (filenameEl d, stats_min d, stats_max d, stats_avg d,
   [plots d !! "plot-3d"; plots d !! "plot-2d"; plots d !! "histogram-plot";
    plots d !! "gradient-plot"; plots d !! "roi-plot"]).

(** The label and the two buttons are the ones [updateControls] would
    write for the current index and total. *)
Definition controls_in_sync (p : page) : Prop :=
  controls (dom p) = controls (dom (run updateControls p)).

(** [failed], as a test. *)
Definition fails {A} (r : fetch_outcome A) : bool :=
  match r with
  | rejected => true
  | resolved status body =>
      negb (response_ok status)
      || match body with None => true | Some _ => false end
  end.

(** The answer that arrives is a failed one. *)
Definition failed_answer (e : event) : bool :=
  match e with
  | summary_arrives _ r => fails r
  | detail_arrives _ r => fails r
  | _ => false
  end.

(** The answer that arrives is an accepted detail record. *)
Definition accepted_detail (e : event) : bool :=
  match e with
  | detail_arrives _ r => negb (fails r)
  | _ => false
  end.

(** The answer that arrives is an accepted summary with at least one
    dataset. *)
Definition accepted_nonempty_summary (e : event) : bool :=
  match e with
  | summary_arrives _ (resolved status (Some (_ :: _))) => response_ok status
  | _ => false
  end.

(** The answer that arrives is an accepted empty summary for a call the
    timer made. *)
Definition accepted_empty_tick (e : event) : bool :=
  match e with
  | summary_arrives false (resolved status (Some [])) => response_ok status
  | _ => false
  end.

Definition no_empty_tick (e : event) (p : page) : bool :=
  negb (accepted_empty_tick e).

(** All rows of a matrix have [c] entries. *)
Definition rectangular (c : nat) (m : matrix) : Prop :=
  Forall (fun row => length row = c) m.

(** Where the index is at or beyond a total of at least 1, the next
    button is disabled. *)
Definition next_disabled_beyond_total (p : page) : Prop :=
  currentDatasetIndex p >= totalDatasets p -> totalDatasets p >= 1 ->
  btnNext_disabled (dom p) = true.

(** ** Fixtures for the concrete runs *)

Definition ok {A} (body : A) : fetch_outcome A := resolved 200 (Some body).

Definition sample_summary (x : number) (n : nat) : list SummaryPoint :=
  replicate n {| timestamp := "t"; max_temp := x; min_temp := x |}.

Definition sample_detail (name : string) (x : number) : DetailRecord :=
  {| filename := name;
     stats := {| min := x; max := x; avg := x |};
     matrices := {| temperature := [[x]]; gradient_magnitude := [[x]];
                    hot_roi := [[x]] |} |}.

(** [toFixed] on integers: the digits asked for are zeros. *)
Definition integer_toFixed (x digits : Z) : string :=
  if bool_decide (digits > 0)
  then pretty x +:+ "." +:+ String.concat EmptyString (replicate (Z.to_nat digits) "0")
  else pretty x.

Definition blank_document : document :=
  {| counterEl := EmptyString; btnPrev_disabled := false;
     btnNext_disabled := false; filenameEl := EmptyString;
     stats_min := EmptyString; stats_max := EmptyString;
     stats_avg := EmptyString;
     plots := ∅ |}.

(** * Properties *)

(** ** What each function does to the page *)

Lemma updateControls_eq (p : page) :
  updateControls p =
  (inr tt,
   {| currentDatasetIndex := currentDatasetIndex p;
      totalDatasets := totalDatasets p;
      dom := {| counterEl :=
                  if bool_decide (totalDatasets p > 0)
                  then pretty (currentDatasetIndex p + 1) +:+ " / "
                       +:+ pretty (totalDatasets p)
                  else "0 / 0";
                btnPrev_disabled := bool_decide (currentDatasetIndex p <= 0);
                btnNext_disabled :=
                  bool_decide (currentDatasetIndex p >= totalDatasets p - 1);
                filenameEl := filenameEl (dom p);
                stats_min := stats_min (dom p);
                stats_max := stats_max (dom p);
                stats_avg := stats_avg (dom p);
                plots := plots (dom p) |};
      console := console p; pending := pending p |}).
Proof. reflexivity. Qed.

Lemma btnNext_click_moves (p : page) :
  currentDatasetIndex p < totalDatasets p - 1 ->
  btnNext_click p =
  (inr tt,
   run (updateDetailPlots (currentDatasetIndex p + 1))
     (run updateControls
        (run (set_currentDatasetIndex (currentDatasetIndex p + 1)) p))).
Proof.
  intros Hlt. unfold btnNext_click, mbind, M_bind, gets.
  rewrite bool_decide_eq_true_2 by done. reflexivity.
Qed.

Lemma btnNext_click_stays (p : page) :
  ~ currentDatasetIndex p < totalDatasets p - 1 ->
  btnNext_click p = (inr tt, p).
Proof.
  intros Hge. unfold btnNext_click, mbind, M_bind, gets.
  rewrite bool_decide_eq_false_2 by done. reflexivity.
Qed.

Lemma btnPrev_click_moves (p : page) :
  currentDatasetIndex p > 0 ->
  btnPrev_click p =
  (inr tt,
   run (updateDetailPlots (currentDatasetIndex p - 1))
     (run updateControls
        (run (set_currentDatasetIndex (currentDatasetIndex p - 1)) p))).
Proof.
  intros Hgt. unfold btnPrev_click, mbind, M_bind, gets.
  rewrite bool_decide_eq_true_2 by done. reflexivity.
Qed.

Lemma btnPrev_click_stays (p : page) :
  ~ currentDatasetIndex p > 0 ->
  btnPrev_click p = (inr tt, p).
Proof.
  intros Hle. unfold btnPrev_click, mbind, M_bind, gets.
  rewrite bool_decide_eq_false_2 by done. reflexivity.
Qed.

(** The error a failed fetch raises inside the [try] block. *)
Lemma receive_failed {A} (r : fetch_outcome A) (not_ok : string) (p : page) :
  failed r -> exists e, receive r not_ok p = (inl e, p).
Proof.
  destruct r as [|status [data|]]; simpl; intros Hf.
  - by eexists.
  - destruct Hf as [-> | ?]; [by eexists | done].
  - destruct (response_ok status); by eexists.
Qed.

Lemma receive_ok {A} status (data : A) (not_ok : string) (p : page) :
  response_ok status = true ->
  receive (resolved status (Some data)) not_ok p = (inr data, p).
Proof. intros Hok. simpl. by rewrite Hok. Qed.

Lemma updateTemporalPlot_resume_failed r (p : page) :
  failed r ->
  exists e,
    updateTemporalPlot_resume r p =
    (inr tt, run (console_error "Error en updateTemporalPlot:" e) p).
Proof.
  intros Hf.
  destruct (receive_failed r "Error al cargar datos de resumen" p Hf)
    as [e He].
  exists e. unfold updateTemporalPlot_resume, try_catch, mbind, M_bind.
  rewrite He. reflexivity.
Qed.

Lemma updateTemporalPlot_resume_empty status (p : page) :
  response_ok status = true ->
  updateTemporalPlot_resume (resolved status (Some [])) p =
  (inr tt, run (set_totalDatasets 0) p).
Proof.
  intros Hok. unfold updateTemporalPlot_resume, try_catch, mbind, M_bind.
  rewrite receive_ok by done. reflexivity.
Qed.

Lemma updateTemporalPlot_resume_nonempty status summaryData (p : page) :
  response_ok status = true -> summaryData <> [] ->
  updateTemporalPlot_resume (resolved status (Some summaryData)) p =
  (inr tt,
   run updateControls
     (run (Plotly_newPlot "temporal-plot" (temporal_figure summaryData))
        (run (set_totalDatasets (Z.of_nat (length summaryData))) p))).
Proof.
  intros Hok Hne. unfold updateTemporalPlot_resume, try_catch, mbind, M_bind.
  rewrite receive_ok by done. cbn [set_totalDatasets modify gets totalDatasets].
  rewrite bool_decide_eq_false_2; [reflexivity |].
  destruct summaryData; [done | cbn [length]; lia].
Qed.

Lemma updateDetailPlots_resume_failed index r (p : page) :
  failed r ->
  exists e,
    updateDetailPlots_resume index r p =
    (inr tt, run (console_error "Error en updateDetailPlots:" e) p).
Proof.
  intros Hf.
  destruct (receive_failed r
              ("Dataset " +:+ pretty index +:+ " no encontrado") p Hf)
    as [e He].
  exists e. unfold updateDetailPlots_resume, try_catch, mbind, M_bind.
  rewrite He. reflexivity.
Qed.

(** ** The two variables along a run *)

Lemma outcome_cases {A} (r : fetch_outcome A) :
  failed r \/
  exists status data,
    r = resolved status (Some data) /\ response_ok status = true.
Proof.
  destruct r as [|status [data|]]; simpl; [by left | | by left; right].
  destruct (response_ok status) eqn:Hok; [right; eauto | by left; left].
Qed.

Lemma updateTemporalPlot_resume_returns r (p : page) :
  updateTemporalPlot_resume r p = (inr tt, run (updateTemporalPlot_resume r) p).
Proof.
  destruct (outcome_cases r) as [Hf | (status & l & -> & Hok)].
  - destruct (updateTemporalPlot_resume_failed r p Hf) as [e He].
    unfold run. by rewrite He.
  - destruct l as [|pt l].
    + unfold run. by rewrite updateTemporalPlot_resume_empty.
    + unfold run at 1.
      by rewrite updateTemporalPlot_resume_nonempty.
Qed.

Lemma updateTemporalPlot_resume_index r (p : page) :
  currentDatasetIndex (run (updateTemporalPlot_resume r) p)
  = currentDatasetIndex p.
Proof.
  destruct (outcome_cases r) as [Hf | (status & l & -> & Hok)].
  - destruct (updateTemporalPlot_resume_failed r p Hf) as [e He].
    unfold run at 1. by rewrite He.
  - destruct l as [|pt l]; unfold run at 1.
    + by rewrite updateTemporalPlot_resume_empty.
    + by rewrite updateTemporalPlot_resume_nonempty.
Qed.

Lemma updateTemporalPlot_resume_total_failed r (p : page) :
  failed r ->
  totalDatasets (run (updateTemporalPlot_resume r) p) = totalDatasets p.
Proof.
  intros Hf. destruct (updateTemporalPlot_resume_failed r p Hf) as [e He].
  unfold run at 1. by rewrite He.
Qed.

Lemma updateTemporalPlot_resume_total_ok status l (p : page) :
  response_ok status = true ->
  totalDatasets (run (updateTemporalPlot_resume (resolved status (Some l))) p)
  = Z.of_nat (length l).
Proof.
  intros Hok. destruct l as [|pt l]; unfold run at 1.
  - by rewrite updateTemporalPlot_resume_empty.
  - by rewrite updateTemporalPlot_resume_nonempty.
Qed.

Lemma initialize_resume_index (p : page) :
  currentDatasetIndex (run initialize_resume p) = currentDatasetIndex p.
Proof.
  unfold run, initialize_resume, mbind, M_bind, gets.
  by case_bool_decide.
Qed.

Lemma initialize_resume_total (p : page) :
  totalDatasets (run initialize_resume p) = totalDatasets p.
Proof.
  unfold run, initialize_resume, mbind, M_bind, gets.
  by case_bool_decide.
Qed.

(** The handler of an arriving summary, split at the semicolon. *)
Lemma summary_handler_run (from_initialize : bool) r (p : page) :
  run (updateTemporalPlot_resume r;;
       if from_initialize then initialize_resume else mret tt) p
  = if from_initialize
    then run initialize_resume (run (updateTemporalPlot_resume r) p)
    else run (updateTemporalPlot_resume r) p.
Proof.
  unfold run at 1, mbind, M_bind.
  rewrite updateTemporalPlot_resume_returns.
  by destruct from_initialize.
Qed.

Lemma updateDetailPlots_resume_index index r (p : page) :
  currentDatasetIndex (run (updateDetailPlots_resume index r) p)
  = currentDatasetIndex p.
Proof.
  destruct (outcome_cases r) as [Hf | (status & d & -> & Hok)].
  - destruct (updateDetailPlots_resume_failed index r p Hf) as [e He].
    unfold run at 1. by rewrite He.
  - unfold run, updateDetailPlots_resume, try_catch, mbind, M_bind.
    by rewrite receive_ok.
Qed.

Lemma updateDetailPlots_resume_total index r (p : page) :
  totalDatasets (run (updateDetailPlots_resume index r) p)
  = totalDatasets p.
Proof.
  destruct (outcome_cases r) as [Hf | (status & d & -> & Hok)].
  - destruct (updateDetailPlots_resume_failed index r p Hf) as [e He].
    unfold run at 1. by rewrite He.
  - unfold run, updateDetailPlots_resume, try_catch, mbind, M_bind.
    by rewrite receive_ok.
Qed.

(** How one event moves the pair (index, total). *)
Lemma step_navigator e (p p' : page) :
  step e p = Some p' ->
  (currentDatasetIndex p' = currentDatasetIndex p /\
   totalDatasets p' = totalDatasets p) \/
  (currentDatasetIndex p > 0 /\
   currentDatasetIndex p' = currentDatasetIndex p - 1 /\
   totalDatasets p' = totalDatasets p) \/
  (currentDatasetIndex p < totalDatasets p - 1 /\
   currentDatasetIndex p' = currentDatasetIndex p + 1 /\
   totalDatasets p' = totalDatasets p) \/
  (exists b status l,
     e = summary_arrives b (resolved status (Some l)) /\
     response_ok status = true /\
     currentDatasetIndex p' = currentDatasetIndex p /\
     totalDatasets p' = Z.of_nat (length l)).
Proof.
  destruct e as [| | |b r|index r]; simpl.
  - destruct (btnPrev_disabled (dom p)); [done |]. intros [= <-].
    destruct (decide (currentDatasetIndex p > 0)) as [Hgt|Hle].
    + right; left. unfold run. by rewrite btnPrev_click_moves.
    + left. unfold run. by rewrite btnPrev_click_stays.
  - destruct (btnNext_disabled (dom p)); [done |]. intros [= <-].
    destruct (decide (currentDatasetIndex p < totalDatasets p - 1))
      as [Hlt|Hge].
    + right; right; left. unfold run. by rewrite btnNext_click_moves.
    + left. unfold run. by rewrite btnNext_click_stays.
  - intros [= <-]. by left.
  - case_decide; [|done]. intros [= <-].
    rewrite summary_handler_run.
    set (q := run (updateTemporalPlot_resume r)
                (resume_call (summary_fetch b) p)).
    assert (currentDatasetIndex (if b then run initialize_resume q else q)
            = currentDatasetIndex q /\
            totalDatasets (if b then run initialize_resume q else q)
            = totalDatasets q) as [-> ->].
    { destruct b; [|done].
      by rewrite initialize_resume_index, initialize_resume_total. }
    subst q. rewrite updateTemporalPlot_resume_index.
    destruct (outcome_cases r) as [Hf | (status & l & -> & Hok)].
    + left. by rewrite updateTemporalPlot_resume_total_failed.
    + right; right; right. exists b, status, l.
      by rewrite updateTemporalPlot_resume_total_ok.
  - case_decide; [|done]. intros [= <-]. left.
    by rewrite updateDetailPlots_resume_index,
      updateDetailPlots_resume_total.
Qed.

(** A property kept by every accepted event holds at the end of a run. *)
Lemma run_events_invariant (allowed : event -> page -> bool)
    (I : page -> Prop) :
  (forall e p p', allowed e p = true -> step e p = Some p' -> I p -> I p') ->
  forall evs p p', I p -> run_events allowed evs p = Some p' -> I p'.
Proof.
  intros Hstep evs. induction evs as [|e evs IH]; intros p p' Hp; simpl.
  - by intros [= <-].
  - destruct (allowed e p) eqn:Hal; [|done].
    destruct (step e p) as [q|] eqn:Hq; [|done].
    apply IH. by eapply Hstep.
Qed.

Lemma step_bounds e (p p' : page) :
  step e p = Some p' ->
  0 <= currentDatasetIndex p /\ 0 <= totalDatasets p ->
  0 <= currentDatasetIndex p' /\ 0 <= totalDatasets p'.
Proof.
  intros Hs [Hi Ht].
  destruct (step_navigator e p p' Hs)
    as [[-> ->] | [(? & -> & ->) | [(? & -> & ->) | (b & st & l & _ & _ & -> & ->)]]];
    lia.
Qed.

Lemma step_navigator_invariant e (p p' : page) :
  covers_index e p = true -> step e p = Some p' ->
  navigator_invariant p /\ 0 <= currentDatasetIndex p ->
  navigator_invariant p' /\ 0 <= currentDatasetIndex p'.
Proof.
  unfold navigator_invariant. intros Hcov Hs [[Hpos Hzero] Hnn].
  destruct (step_navigator e p p' Hs)
    as [[-> ->] | [(? & -> & ->) | [(? & -> & ->) | (b & st & l & -> & Hok & -> & ->)]]];
    [done | lia | lia |].
  simpl in Hcov. rewrite Hok in Hcov. simpl in Hcov.
  apply orb_true_iff in Hcov as [Hlt | Hz].
  - apply bool_decide_eq_true_1 in Hlt. lia.
  - apply bool_decide_eq_true_1 in Hz. lia.
Qed.

Lemma step_summary_accepted b status l (p p' : page) :
  response_ok status = true ->
  step (summary_arrives b (resolved status (Some l))) p = Some p' ->
  currentDatasetIndex p' = currentDatasetIndex p /\
  totalDatasets p' = Z.of_nat (length l).
Proof.
  intros Hok. simpl. case_decide; [|done]. intros [= <-].
  rewrite summary_handler_run.
  set (q := run (updateTemporalPlot_resume (resolved status (Some l)))
              (resume_call (summary_fetch b) p)).
  assert (currentDatasetIndex q = currentDatasetIndex p /\
          totalDatasets q = Z.of_nat (length l)) as [<- <-].
  { subst q. by rewrite updateTemporalPlot_resume_index,
      updateTemporalPlot_resume_total_ok. }
  destruct b; [|done].
  by rewrite initialize_resume_index, initialize_resume_total.
Qed.

(** An accepted summary keeps the invariant exactly when it covers the
    index. *)
Lemma summary_keeps_invariant_iff b status l (p p' : page) :
  response_ok status = true ->
  step (summary_arrives b (resolved status (Some l))) p = Some p' ->
  navigator_invariant p /\ 0 <= currentDatasetIndex p ->
  (navigator_invariant p'
   <-> covers_index (summary_arrives b (resolved status (Some l))) p = true).
Proof.
  intros Hok Hs Hinv. split.
  - unfold navigator_invariant.
    destruct (step_summary_accepted b status l p p' Hok Hs) as [-> ->].
    intros [Hpos Hzero].
    simpl. rewrite Hok. simpl. apply orb_true_iff.
    destruct (decide (Z.of_nat (length l) = 0)) as [Hz|Hnz].
    + right. apply bool_decide_eq_true_2. lia.
    + left. apply bool_decide_eq_true_2. lia.
  - intros Hcov. by apply (step_navigator_invariant _ p p' Hcov Hs).
Qed.

Lemma boot_invariant (html : document) :
  navigator_invariant (boot html) /\ 0 <= currentDatasetIndex (boot html).
Proof. unfold navigator_invariant. simpl. lia. Qed.

(** ** The navigator *)

(** C10: in every reachable page the index is at least 0. *)
Theorem index_never_negative (html : document) (p : page) :
  reachable html p -> 0 <= currentDatasetIndex p.
Proof.
  intros [evs Hrun].
  apply (run_events_invariant any_event
           (fun q => 0 <= currentDatasetIndex q /\ 0 <= totalDatasets q))
    with (p' := p) in Hrun.
  - tauto.
  - intros e q q' _ Hs. by apply step_bounds with e.
  - simpl. lia.
Qed.

(** C1, amended: the NavigatorState invariant holds at the start and
    after every run in which each accepted summary has a length above
    the current index, or length 0 at index 0; next and previous keep
    it, and a summary writes the total only. *)
Theorem navigator_invariant_while_covered
    (html : document) (evs : list event) (p : page) :
  run_events covers_index evs (boot html) = Some p -> navigator_invariant p.
Proof.
  intros Hrun.
  apply (run_events_invariant covers_index
           (fun q => navigator_invariant q /\ 0 <= currentDatasetIndex q))
    with (p' := p) in Hrun.
  - tauto.
  - intros e q q'. apply step_navigator_invariant.
  - apply boot_invariant.
Qed.

(** C2, amended: an accepted summary of length n sets the total to n
    and leaves the index as it was, whatever n is. *)
Theorem summary_sets_total_keeps_index
    (p : page) (status : Z) (summaryData : list SummaryPoint) :
  response_ok status = true ->
  let p' :=
    run (updateTemporalPlot_resume (resolved status (Some summaryData))) p in
  totalDatasets p' = Z.of_nat (length summaryData) /\
  currentDatasetIndex p' = currentDatasetIndex p.
Proof.
  intros Hok p'. subst p'. split.
  - by apply updateTemporalPlot_resume_total_ok.
  - apply updateTemporalPlot_resume_index.
Qed.

(** What the next handler does on any page: it increments the index,
    redraws the controls and starts the detail fetch for the new index
    when index < total-1; otherwise it does nothing.  It does nothing
    exactly when index >= total-1, which on pages that satisfy the
    invariant with a total of at least 0 is index = total-1 or
    total = 0. *)
Lemma btnNext_click_spec (p : page) :
  let index := currentDatasetIndex p in
  let total := totalDatasets p in
  (index < total - 1 ->
   btnNext_click p = (inr tt, run btnNext_click p) /\
   currentDatasetIndex (run btnNext_click p) = index + 1 /\
   totalDatasets (run btnNext_click p) = total /\
   controls (dom (run btnNext_click p))
   = (if bool_decide (total > 0)
      then pretty (index + 1 + 1) +:+ " / " +:+ pretty total
      else "0 / 0",
      bool_decide (index + 1 <= 0),
      bool_decide (index + 1 >= total - 1)) /\
   pending (run btnNext_click p) = pending p ++ [detail_fetch (index + 1)]) /\
  (~ index < total - 1 -> btnNext_click p = (inr tt, p)) /\
  (run btnNext_click p = p <-> index >= total - 1) /\
  (navigator_invariant p -> 0 <= total ->
   (run btnNext_click p = p <-> index = total - 1 \/ total = 0)).
Proof.
  intros index total. subst index total.
  assert (run btnNext_click p = p
          <-> currentDatasetIndex p >= totalDatasets p - 1) as Hnoop.
  { destruct (decide (currentDatasetIndex p < totalDatasets p - 1))
      as [Hlt|Hge].
    - unfold run. rewrite btnNext_click_moves by done. split; [|lia].
      intros Heq. apply (f_equal currentDatasetIndex) in Heq.
      simpl in Heq. lia.
    - unfold run. rewrite btnNext_click_stays by done. split; [lia|done]. }
  split; [|split; [|split]].
  - intros Hlt. unfold run. by rewrite btnNext_click_moves.
  - apply btnNext_click_stays.
  - done.
  - unfold navigator_invariant. intros [Hpos Hzero] Htot.
    rewrite Hnoop. lia.
Qed.

(** C5: on a page whose index is at least 0, previous decrements the
    index, redraws the controls and starts the detail fetch for the new
    index when index > 0; otherwise it does nothing, and it does
    nothing exactly when index = 0. *)
Theorem btnPrev_click_spec (p : page) :
  0 <= currentDatasetIndex p ->
  let index := currentDatasetIndex p in
  let total := totalDatasets p in
  (index > 0 ->
   btnPrev_click p = (inr tt, run btnPrev_click p) /\
   currentDatasetIndex (run btnPrev_click p) = index - 1 /\
   totalDatasets (run btnPrev_click p) = total /\
   controls (dom (run btnPrev_click p))
   = (if bool_decide (total > 0)
      then pretty (index - 1 + 1) +:+ " / " +:+ pretty total
      else "0 / 0",
      bool_decide (index - 1 <= 0),
      bool_decide (index - 1 >= total - 1)) /\
   pending (run btnPrev_click p) = pending p ++ [detail_fetch (index - 1)]) /\
  (~ index > 0 -> btnPrev_click p = (inr tt, p)) /\
  (run btnPrev_click p = p <-> index = 0).
Proof.
  intros Hnn index total. subst index total.
  split; [|split].
  - intros Hgt. unfold run. by rewrite btnPrev_click_moves.
  - apply btnPrev_click_stays.
  - destruct (decide (currentDatasetIndex p > 0)) as [Hgt|Hle].
    + unfold run. rewrite btnPrev_click_moves by done. split; [|lia].
      intros Heq. apply (f_equal currentDatasetIndex) in Heq.
      simpl in Heq. lia.
    + unfold run. rewrite btnPrev_click_stays by done. split; [lia|done].
Qed.

(** C6, amended: what updateControls writes is a function of
    (index, total) alone: the label is index+1 and total in decimal
    joined by " / " (with the spaces) when total > 0 and "0 / 0"
    otherwise, previous is enabled exactly when index > 0 and next
    exactly when index < total-1; nothing else on the page changes. *)
Theorem updateControls_spec (p : page) :
  let index := currentDatasetIndex p in
  let total := totalDatasets p in
  let p' := run updateControls p in
  (total > 0 ->
   counterEl (dom p') = pretty (index + 1) +:+ " / " +:+ pretty total) /\
  (~ total > 0 -> counterEl (dom p') = "0 / 0") /\
  (btnPrev_disabled (dom p') = false <-> index > 0) /\
  (btnNext_disabled (dom p') = false <-> index < total - 1) /\
  (forall q : page,
     currentDatasetIndex q = index -> totalDatasets q = total ->
     controls (dom (run updateControls q)) = controls (dom p')) /\
  p' = {| currentDatasetIndex := index; totalDatasets := total;
          dom := {| counterEl := counterEl (dom p');
                    btnPrev_disabled := btnPrev_disabled (dom p');
                    btnNext_disabled := btnNext_disabled (dom p');
                    filenameEl := filenameEl (dom p);
                    stats_min := stats_min (dom p);
                    stats_max := stats_max (dom p);
                    stats_avg := stats_avg (dom p);
                    plots := plots (dom p) |};
          console := console p; pending := pending p |}.
Proof.
  intros index total p'. subst index total p'.
  unfold run. rewrite updateControls_eq. cbn [snd dom counterEl
    btnPrev_disabled btnNext_disabled].
  repeat split.
  - intros Hpos. by rewrite bool_decide_eq_true_2.
  - intros Hnpos. by rewrite bool_decide_eq_false_2.
  - intros Hd. apply bool_decide_eq_false_1 in Hd. lia.
  - intros Hgt. apply bool_decide_eq_false_2. lia.
  - intros Hd. apply bool_decide_eq_false_1 in Hd. lia.
  - intros Hlt. apply bool_decide_eq_false_2. lia.
  - intros q Hi Ht. rewrite updateControls_eq. unfold controls.
    cbn [snd dom counterEl btnPrev_disabled btnNext_disabled].
    by rewrite Hi, Ht.
Qed.

(** ** Failed fetches *)

(** C7: when the summary fetch fails, updateTemporalPlot completes
    without throwing, appends one entry to the console and leaves the
    index, the total, the document with its charts and the suspended
    calls as they were. *)
Theorem updateTemporalPlot_failure (p : page)
    (r : fetch_outcome (list SummaryPoint)) :
  failed r ->
  exists error,
    updateTemporalPlot_resume r p =
    (inr tt,
     {| currentDatasetIndex := currentDatasetIndex p;
        totalDatasets := totalDatasets p;
        dom := dom p;
        console := console p ++ [("Error en updateTemporalPlot:", error)];
        pending := pending p |}).
Proof.
  intros Hf. destruct (updateTemporalPlot_resume_failed r p Hf) as [e He].
  exists e. by rewrite He.
Qed.

(** C8: when the detail fetch fails, updateDetailPlots completes
    without throwing, appends one entry to the console and leaves the
    filename, the three statistics labels and every chart as they
    were. *)
Theorem updateDetailPlots_failure (p : page) (index : Z)
    (r : fetch_outcome DetailRecord) :
  failed r ->
  exists error,
    updateDetailPlots_resume index r p =
    (inr tt,
     {| currentDatasetIndex := currentDatasetIndex p;
        totalDatasets := totalDatasets p;
        dom := dom p;
        console := console p ++ [("Error en updateDetailPlots:", error)];
        pending := pending p |}).
Proof.
  intros Hf.
  destruct (updateDetailPlots_resume_failed index r p Hf) as [e He].
  exists e. by rewrite He.
Qed.

(** ** Accepted answers *)

Lemma updateDetailPlots_resume_shows index status detailData (p : page) :
  response_ok status = true ->
  shows (dom (run (updateDetailPlots_resume index
                     (resolved status (Some detailData))) p))
        detailData.
Proof.
  intros Hok.
  unfold run, updateDetailPlots_resume, try_catch, mbind, M_bind.
  rewrite receive_ok by done.
  unfold shows; cbn. repeat split; by simplify_map_eq.
Qed.

Lemma updateDetailPlots_resume_controls index r (p : page) :
  controls (dom (run (updateDetailPlots_resume index r) p))
  = controls (dom p).
Proof.
  destruct (outcome_cases r) as [Hf | (status & d & -> & Hok)].
  - destruct (updateDetailPlots_resume_failed index r p Hf) as [e He].
    unfold run at 1. by rewrite He.
  - unfold run, updateDetailPlots_resume, try_catch, mbind, M_bind.
    by rewrite receive_ok.
Qed.

(** C3, amended: the answer to a detail fetch is drawn when it
    arrives, whatever the current index is: if it is accepted, the
    filename, the statistics and the five detail charts become those of
    the arriving record; index, total and the paging controls are
    neither consulted nor changed. *)
Theorem detail_answer_drawn_on_arrival
    (p : page) (index status : Z) (detailData : DetailRecord) :
  response_ok status = true ->
  detail_fetch index ∈ pending p ->
  exists p',
    step (detail_arrives index (resolved status (Some detailData))) p
    = Some p' /\
    shows (dom p') detailData /\
    currentDatasetIndex p' = currentDatasetIndex p /\
    totalDatasets p' = totalDatasets p /\
    controls (dom p') = controls (dom p).
Proof.
  intros Hok Hin. simpl. rewrite decide_True by done.
  eexists. split; [done|].
  split; [by apply updateDetailPlots_resume_shows|].
  by rewrite updateDetailPlots_resume_index,
    updateDetailPlots_resume_total, updateDetailPlots_resume_controls.
Qed.

(** C9, amended: an accepted summary of length n sets the total to n;
    when n > 0 the time-series chart is drawn from the list and the
    controls are recomputed; when n = 0 the chart is not drawn.  At
    startup an empty summary leaves the label at "0 / 0", both buttons
    disabled and no detail fetch started. *)
Theorem summary_answer_spec
    (p : page) (status : Z) (summaryData : list SummaryPoint) :
  response_ok status = true ->
  let p' :=
    run (updateTemporalPlot_resume (resolved status (Some summaryData))) p in
  let n := Z.of_nat (length summaryData) in
  totalDatasets p' = n /\
  (summaryData <> [] ->
   plots (dom p') !! "temporal-plot" = Some (temporal_figure summaryData) /\
   controls (dom p')
   = (pretty (currentDatasetIndex p + 1) +:+ " / " +:+ pretty n,
      bool_decide (currentDatasetIndex p <= 0),
      bool_decide (currentDatasetIndex p >= n - 1))) /\
  (summaryData = [] -> plots (dom p') = plots (dom p)) /\
  (forall html : document,
     exists q,
       step (summary_arrives true (resolved status (Some []))) (boot html)
       = Some q /\
       totalDatasets q = 0 /\
       controls (dom q) = ("0 / 0", true, true) /\
       pending q = []).
Proof.
  intros Hok p' n. subst p' n. split; [|split; [|split]].
  - by apply updateTemporalPlot_resume_total_ok.
  - intros Hne. unfold run at 1 2.
    rewrite updateTemporalPlot_resume_nonempty by done.
    cbn [snd]. split.
    + unfold run. rewrite updateControls_eq. cbn. by simplify_map_eq.
    + unfold run. rewrite updateControls_eq. unfold controls. cbn.
      rewrite bool_decide_eq_true_2; [done|].
      destruct summaryData; [done | cbn [length]; lia].
  - intros ->. unfold run at 1.
    by rewrite updateTemporalPlot_resume_empty.
  - intros html.
    exists (run initialize_resume
              (run (updateTemporalPlot_resume (resolved status (Some [])))
                 (resume_call (summary_fetch true) (boot html)))).
    split.
    + unfold step. rewrite decide_True by (simpl; apply list_elem_of_here).
      f_equal. exact (summary_handler_run true _ _).
    + unfold run at 2 4 6.
      by rewrite updateTemporalPlot_resume_empty.
Qed.

(** * Further properties of the event loop *)

(** ** Helpers *)

Lemma remove_first_elem (c x : pending_call) (l : list pending_call) :
  x ∈ remove_first c l -> x ∈ l.
Proof.
  induction l as [|c' l IH]; simpl; [done|].
  case_decide.
  - intros Hin. by apply list_elem_of_further.
  - intros [->|Hin]%elem_of_cons.
    + apply list_elem_of_here.
    + apply list_elem_of_further. by apply IH.
Qed.

Lemma fails_failed {A} (r : fetch_outcome A) : fails r = true <-> failed r.
Proof.
  destruct r as [|status [data|]]; simpl; [done | |].
  - rewrite orb_false_r, negb_true_iff. split; [by left | by intros [?|?]].
  - rewrite orb_true_r. split; [by right | done].
Qed.

Lemma fails_cases {A} (r : fetch_outcome A) :
  (fails r = true /\ failed r) \/
  (fails r = false /\
   exists status data,
     r = resolved status (Some data) /\ response_ok status = true).
Proof.
  destruct (outcome_cases r) as [Hf | (status & data & -> & Hok)].
  - left. split; [by apply fails_failed | done].
  - right. split; [simpl; by rewrite Hok | eauto].
Qed.

(** The page an arriving summary leaves. *)
Lemma step_summary_eq (b : bool) r (p p' : page) :
  step (summary_arrives b r) p = Some p' ->
  summary_fetch b ∈ pending p /\
  p' = (if b
        then run initialize_resume
               (run (updateTemporalPlot_resume r)
                  (resume_call (summary_fetch b) p))
        else run (updateTemporalPlot_resume r)
               (resume_call (summary_fetch b) p)).
Proof.
  simpl. case_decide; [|done]. intros [= <-].
  split; [done|]. apply summary_handler_run.
Qed.

Lemma step_detail_eq index r (p p' : page) :
  step (detail_arrives index r) p = Some p' ->
  detail_fetch index ∈ pending p /\
  p' = run (updateDetailPlots_resume index r)
         (resume_call (detail_fetch index) p).
Proof. simpl. case_decide; [|done]. by intros [= <-]. Qed.

Lemma updateTemporalPlot_resume_failed_eq r (p : page) :
  failed r ->
  exists error,
    run (updateTemporalPlot_resume r) p =
    {| currentDatasetIndex := currentDatasetIndex p;
       totalDatasets := totalDatasets p; dom := dom p;
       console := console p ++ [("Error en updateTemporalPlot:", error)];
       pending := pending p |}.
Proof.
  intros Hf. destruct (updateTemporalPlot_resume_failed r p Hf) as [e He].
  exists e. unfold run at 1. by rewrite He.
Qed.

Lemma updateDetailPlots_resume_failed_eq index r (p : page) :
  failed r ->
  exists error,
    run (updateDetailPlots_resume index r) p =
    {| currentDatasetIndex := currentDatasetIndex p;
       totalDatasets := totalDatasets p; dom := dom p;
       console := console p ++ [("Error en updateDetailPlots:", error)];
       pending := pending p |}.
Proof.
  intros Hf.
  destruct (updateDetailPlots_resume_failed index r p Hf) as [e He].
  exists e. unfold run at 1. by rewrite He.
Qed.

Lemma updateDetailPlots_resume_ok_eq index status detailData (p : page) :
  response_ok status = true ->
  updateDetailPlots_resume index (resolved status (Some detailData)) p =
  (inr tt,
   {| currentDatasetIndex := currentDatasetIndex p;
      totalDatasets := totalDatasets p;
      dom := {| counterEl := counterEl (dom p);
                btnPrev_disabled := btnPrev_disabled (dom p);
                btnNext_disabled := btnNext_disabled (dom p);
                filenameEl := filename detailData;
                stats_min := toFixed (min (stats detailData)) 2 +:+ " °C";
                stats_max := toFixed (max (stats detailData)) 2 +:+ " °C";
                stats_avg := toFixed (avg (stats detailData)) 2 +:+ " °C";
                plots :=
                  <["roi-plot" := figure_roi detailData]>
                    (<["gradient-plot" := figure_gradient detailData]>
                       (<["histogram-plot" := figure_histogram detailData]>
                          (<["plot-2d" := figure_2d detailData]>
                             (<["plot-3d" := figure_3d detailData]>
                                (plots (dom p)))))) |};
      console := console p; pending := pending p |}).
Proof.
  intros Hok. unfold updateDetailPlots_resume, try_catch, mbind, M_bind.
  by rewrite receive_ok.
Qed.

Lemma initialize_resume_eq (p : page) :
  run initialize_resume p =
  run updateControls
    (if bool_decide (totalDatasets p > 0)
     then run (updateDetailPlots (currentDatasetIndex p)) p
     else p).
Proof.
  unfold run, initialize_resume, mbind, M_bind, gets.
  by case_bool_decide.
Qed.

(** ** Startup *)

(** X1: at startup, an accepted summary with at least one dataset sets the
    total, draws the time-series chart, shows "1 / n" with previous
    disabled and next enabled unless n = 1, and starts exactly one
    detail fetch, for index 0. *)
Theorem startup_with_datasets
    (html : document) (status : Z) (summaryData : list SummaryPoint) :
  response_ok status = true -> summaryData <> [] ->
  exists q,
    step (summary_arrives true (resolved status (Some summaryData)))
      (boot html) = Some q /\
    currentDatasetIndex q = 0 /\
    totalDatasets q = Z.of_nat (length summaryData) /\
    plots (dom q) !! "temporal-plot" = Some (temporal_figure summaryData) /\
    controls (dom q)
    = ("1 / " +:+ pretty (Z.of_nat (length summaryData)), true,
       bool_decide (length summaryData = 1%nat)) /\
    console q = [] /\
    pending q = [detail_fetch 0].
Proof.
  intros Hok Hne.
  assert (Z.of_nat (length summaryData) > 0) as Hpos.
  { destruct summaryData; [done | cbn [length]; lia]. }
  exists (run initialize_resume
            (run (updateTemporalPlot_resume
                    (resolved status (Some summaryData)))
               (resume_call (summary_fetch true) (boot html)))).
  split.
  { unfold step. rewrite decide_True by (simpl; apply list_elem_of_here).
    f_equal. exact (summary_handler_run true _ _). }
  rewrite initialize_resume_eq.
  rewrite updateTemporalPlot_resume_total_ok, updateTemporalPlot_resume_index
    by done.
  rewrite bool_decide_eq_true_2 by done.
  unfold run at 3 6 9 12 15 18.
  rewrite updateTemporalPlot_resume_nonempty by done.
  unfold run. rewrite !updateControls_eq. cbn.
  rewrite decide_True by done.
  rewrite bool_decide_eq_true_2 by done.
  repeat split; try done.
  - by simplify_map_eq.
  - unfold controls. cbn. f_equal. apply bool_decide_ext. lia.
Qed.

(** X2: at startup, a failed summary fetch is logged once, starts no detail
    fetch, draws nothing, and leaves the label at "0 / 0" with both
    buttons disabled. *)
Theorem startup_failed
    (html : document) (r : fetch_outcome (list SummaryPoint)) :
  failed r ->
  exists q error,
    step (summary_arrives true r) (boot html) = Some q /\
    currentDatasetIndex q = 0 /\ totalDatasets q = 0 /\
    controls (dom q) = ("0 / 0", true, true) /\
    plots (dom q) = plots html /\
    detail_view (dom q) = detail_view html /\
    console q = [("Error en updateTemporalPlot:", error)] /\
    pending q = [].
Proof.
  intros Hf.
  destruct (updateTemporalPlot_resume_failed_eq r
              (resume_call (summary_fetch true) (boot html)) Hf)
    as [error Herr].
  exists (run initialize_resume
            (run (updateTemporalPlot_resume r)
               (resume_call (summary_fetch true) (boot html)))), error.
  split.
  { unfold step. rewrite decide_True by (simpl; apply list_elem_of_here).
    f_equal. exact (summary_handler_run true _ _). }
  rewrite Herr. cbn. by rewrite decide_True.
Qed.

(** ** The timer *)

(** X3: an answer to a summary fetch the timer started never starts a detail
    fetch and never touches the index or the detail view, whatever the
    answer is. *)
Theorem tick_answer_leaves_detail
    (r : fetch_outcome (list SummaryPoint)) (p p' : page) :
  step (summary_arrives false r) p = Some p' ->
  pending p' = remove_first (summary_fetch false) (pending p) /\
  currentDatasetIndex p' = currentDatasetIndex p /\
  detail_view (dom p') = detail_view (dom p).
Proof.
  intros [_ ->]%step_summary_eq.
  destruct (outcome_cases r) as [Hf | (status & l & -> & Hok)].
  - destruct (updateTemporalPlot_resume_failed_eq r
                (resume_call (summary_fetch false) p) Hf) as [e ->].
    done.
  - destruct l as [|pt l]; unfold run at 1 2 3.
    + by rewrite updateTemporalPlot_resume_empty.
    + rewrite updateTemporalPlot_resume_nonempty by done.
      cbn [snd]. unfold run. rewrite updateControls_eq. cbn.
      repeat split. unfold detail_view. cbn.
      by rewrite !lookup_insert_ne by done.
Qed.

(** ** Suspended calls and the console *)

Lemma updateTemporalPlot_resume_pending r (p : page) :
  pending (run (updateTemporalPlot_resume r) p) = pending p.
Proof.
  destruct (outcome_cases r) as [Hf | (status & l & -> & Hok)].
  - by destruct (updateTemporalPlot_resume_failed_eq r p Hf) as [e ->].
  - destruct l as [|pt l]; unfold run at 1.
    + by rewrite updateTemporalPlot_resume_empty.
    + by rewrite updateTemporalPlot_resume_nonempty.
Qed.

Lemma updateTemporalPlot_resume_console r (p : page) :
  length (console (run (updateTemporalPlot_resume r) p))
  = (length (console p) + if fails r then 1 else 0)%nat.
Proof.
  destruct (fails_cases r) as [[-> Hf] | [-> (status & l & -> & Hok)]].
  - destruct (updateTemporalPlot_resume_failed_eq r p Hf) as [e ->].
    cbn. by rewrite length_app.
  - destruct l as [|pt l]; unfold run at 1.
    + rewrite updateTemporalPlot_resume_empty by done. cbn.
      by rewrite Nat.add_0_r.
    + rewrite updateTemporalPlot_resume_nonempty by done. cbn.
      by rewrite Nat.add_0_r.
Qed.

Lemma updateDetailPlots_resume_pending index r (p : page) :
  pending (run (updateDetailPlots_resume index r) p) = pending p.
Proof.
  destruct (outcome_cases r) as [Hf | (status & d & -> & Hok)].
  - by destruct (updateDetailPlots_resume_failed_eq index r p Hf) as [e ->].
  - unfold run. by rewrite updateDetailPlots_resume_ok_eq.
Qed.

Lemma updateDetailPlots_resume_console index r (p : page) :
  length (console (run (updateDetailPlots_resume index r) p))
  = (length (console p) + if fails r then 1 else 0)%nat.
Proof.
  destruct (fails_cases r) as [[-> Hf] | [-> (status & d & -> & Hok)]].
  - destruct (updateDetailPlots_resume_failed_eq index r p Hf) as [e ->].
    cbn. by rewrite length_app.
  - unfold run. rewrite updateDetailPlots_resume_ok_eq by done. cbn.
    by rewrite Nat.add_0_r.
Qed.

(** The calls suspended after an event. *)
Lemma step_pending e (p p' : page) :
  step e p = Some p' ->
  pending p' =
  match e with
  | click_btnPrev =>
      if bool_decide (currentDatasetIndex p > 0)
      then pending p ++ [detail_fetch (currentDatasetIndex p - 1)]
      else pending p
  | click_btnNext =>
      if bool_decide (currentDatasetIndex p < totalDatasets p - 1)
      then pending p ++ [detail_fetch (currentDatasetIndex p + 1)]
      else pending p
  | interval_fires => pending p ++ [summary_fetch false]
  | summary_arrives true _ =>
      remove_first (summary_fetch true) (pending p)
      ++ (if bool_decide (totalDatasets p' > 0)
          then [detail_fetch (currentDatasetIndex p)] else [])
  | summary_arrives false _ => remove_first (summary_fetch false) (pending p)
  | detail_arrives index _ => remove_first (detail_fetch index) (pending p)
  end.
Proof.
  destruct e as [| | |b r|index r].
  - simpl. destruct (btnPrev_disabled (dom p)); [done|]. intros [= <-].
    unfold run. case_bool_decide.
    + by rewrite btnPrev_click_moves.
    + by rewrite btnPrev_click_stays.
  - simpl. destruct (btnNext_disabled (dom p)); [done|]. intros [= <-].
    unfold run. case_bool_decide.
    + by rewrite btnNext_click_moves.
    + by rewrite btnNext_click_stays.
  - by intros [= <-].
  - intros [_ ->]%step_summary_eq. destruct b.
    + rewrite initialize_resume_total, initialize_resume_eq.
      rewrite updateTemporalPlot_resume_index.
      unfold run at 1. rewrite updateControls_eq. cbn [snd pending].
      case_bool_decide.
      * unfold run at 1. cbn.
        by rewrite updateTemporalPlot_resume_pending.
      * rewrite updateTemporalPlot_resume_pending. cbn.
        by rewrite app_nil_r.
    + by rewrite updateTemporalPlot_resume_pending.
  - intros [_ ->]%step_detail_eq.
    by rewrite updateDetailPlots_resume_pending.
Qed.

(** X4: no function that the event loop runs lets an exception escape:
    every handler completes, whatever the page and whatever the answer. *)
Theorem handlers_never_throw (p : page) :
  fst (updateControls p) = inr tt /\
  fst (btnPrev_click p) = inr tt /\
  fst (btnNext_click p) = inr tt /\
  fst (initialize_resume p) = inr tt /\
  (forall r, fst (updateTemporalPlot_resume r p) = inr tt) /\
  (forall index r, fst (updateDetailPlots_resume index r p) = inr tt) /\
  (forall r,
     fst ((updateTemporalPlot_resume r;; initialize_resume) p) = inr tt).
Proof.
  split; [done|]. split.
  { destruct (decide (currentDatasetIndex p > 0)).
    - by rewrite btnPrev_click_moves.
    - by rewrite btnPrev_click_stays. }
  split.
  { destruct (decide (currentDatasetIndex p < totalDatasets p - 1)).
    - by rewrite btnNext_click_moves.
    - by rewrite btnNext_click_stays. }
  assert (forall q : page, fst (initialize_resume q) = inr tt) as Hinit.
  { intros q. unfold initialize_resume, mbind, M_bind, gets.
    by case_bool_decide. }
  split; [apply Hinit|]. split.
  { intros r. by rewrite updateTemporalPlot_resume_returns. }
  split.
  { intros index r.
    destruct (outcome_cases r) as [Hf | (status & d & -> & Hok)].
    - by destruct (updateDetailPlots_resume_failed index r p Hf) as [e ->].
    - by rewrite updateDetailPlots_resume_ok_eq. }
  intros r. unfold mbind, M_bind at 1.
  rewrite updateTemporalPlot_resume_returns. apply Hinit.
Qed.

Lemma step_console e (p p' : page) :
  step e p = Some p' ->
  length (console p')
  = (length (console p) + if failed_answer e then 1 else 0)%nat.
Proof.
  destruct e as [| | |b r|index r].
  - simpl. destruct (btnPrev_disabled (dom p)); [done|]. intros [= <-].
    unfold run. destruct (decide (currentDatasetIndex p > 0)).
    + rewrite btnPrev_click_moves by done. cbn. by rewrite Nat.add_0_r.
    + rewrite btnPrev_click_stays by done. cbn. by rewrite Nat.add_0_r.
  - simpl. destruct (btnNext_disabled (dom p)); [done|]. intros [= <-].
    unfold run. destruct (decide (currentDatasetIndex p < totalDatasets p - 1)).
    + rewrite btnNext_click_moves by done. cbn. by rewrite Nat.add_0_r.
    + rewrite btnNext_click_stays by done. cbn. by rewrite Nat.add_0_r.
  - intros [= <-]. cbn. by rewrite Nat.add_0_r.
  - intros [_ ->]%step_summary_eq. cbn [failed_answer].
    transitivity
      (length (console (run (updateTemporalPlot_resume r)
                          (resume_call (summary_fetch b) p)))).
    + destruct b; [|done].
      rewrite initialize_resume_eq. unfold run at 1.
      rewrite updateControls_eq. cbn [snd console].
      by case_bool_decide.
    + by rewrite updateTemporalPlot_resume_console.
  - intros [_ ->]%step_detail_eq. cbn [failed_answer].
    by rewrite updateDetailPlots_resume_console.
Qed.

(** X5: the console holds one entry per failed answer: along any run from
    startup its length is the number of failed answers that arrived. *)
Theorem console_counts_failed_answers
    (html : document) (evs : list event) (p : page) :
  run_events any_event evs (boot html) = Some p ->
  length (console p) = length (List.filter failed_answer evs).
Proof.
  change (length (List.filter failed_answer evs))
    with (length (console (boot html))
          + length (List.filter failed_answer evs))%nat.
  generalize (boot html) as p0.
  induction evs as [|e evs IH]; intros p0; simpl.
  - intros [= <-]. by rewrite Nat.add_0_r.
  - destruct (step e p0) as [q|] eqn:Hq; [|done].
    intros Hrun. rewrite (IH q Hrun), (step_console e p0 q Hq).
    generalize (length (console p0)) as n.
    destruct (failed_answer e); simpl;
      generalize (length (List.filter failed_answer evs)); lia.
Qed.

(** The index after an event. *)
Lemma step_index e (p p' : page) :
  step e p = Some p' ->
  currentDatasetIndex p' =
  match e with
  | click_btnPrev =>
      if bool_decide (currentDatasetIndex p > 0)
      then currentDatasetIndex p - 1 else currentDatasetIndex p
  | click_btnNext =>
      if bool_decide (currentDatasetIndex p < totalDatasets p - 1)
      then currentDatasetIndex p + 1 else currentDatasetIndex p
  | _ => currentDatasetIndex p
  end.
Proof.
  destruct e as [| | |b r|index r].
  - simpl. destruct (btnPrev_disabled (dom p)); [done|]. intros [= <-].
    unfold run. case_bool_decide.
    + by rewrite btnPrev_click_moves.
    + by rewrite btnPrev_click_stays.
  - simpl. destruct (btnNext_disabled (dom p)); [done|]. intros [= <-].
    unfold run. case_bool_decide.
    + by rewrite btnNext_click_moves.
    + by rewrite btnNext_click_stays.
  - by intros [= <-].
  - intros Hs. destruct (outcome_cases r) as [Hf | (status & l & -> & Hok)].
    + apply step_summary_eq in Hs as [_ ->].
      destruct b; rewrite ?initialize_resume_index;
        by rewrite updateTemporalPlot_resume_index.
    + by destruct (step_summary_accepted b status l p p' Hok Hs) as [-> _].
  - intros [_ ->]%step_detail_eq.
    by rewrite updateDetailPlots_resume_index.
Qed.

Lemma step_new_detail_fetch (e : event) (p p' : page) (i : Z) :
  step e p = Some p' ->
  detail_fetch i ∈ pending p' ->
  detail_fetch i ∈ pending p \/ i = currentDatasetIndex p'.
Proof.
  intros Hs. rewrite (step_pending e p p' Hs), (step_index e p p' Hs).
  destruct e as [| | |[] r|index r].
  - case_bool_decide; [|by left].
    rewrite elem_of_app, list_elem_of_singleton.
    intros [Hin | [= ->]]; [by left | by right].
  - case_bool_decide; [|by left].
    rewrite elem_of_app, list_elem_of_singleton.
    intros [Hin | [= ->]]; [by left | by right].
  - rewrite elem_of_app, list_elem_of_singleton.
    intros [Hin | [=]]. by left.
  - rewrite elem_of_app. intros [Hin | Hin].
    + left. by eapply remove_first_elem.
    + case_bool_decide; [|by apply elem_of_nil in Hin].
      apply list_elem_of_singleton in Hin as [= ->]. by right.
  - intros Hin. left. by eapply remove_first_elem.
  - intros Hin. left. by eapply remove_first_elem.
Qed.

(** X6: a detail fetch is only ever started for the index that is current
    right after the event that starts it, and only a click or the answer
    that [initialize] awaits starts one. *)
Theorem detail_fetch_is_for_current_index
    (e : event) (p p' : page) (i : Z) :
  step e p = Some p' ->
  detail_fetch i ∈ pending p' ->
  detail_fetch i ∈ pending p \/
  (i = currentDatasetIndex p' /\
   (e = click_btnPrev \/ e = click_btnNext \/
    exists r, e = summary_arrives true r)).
Proof.
  intros Hs Hin.
  destruct (step_new_detail_fetch e p p' i Hs Hin) as [Hold | ->];
    [by left|].
  revert Hin. rewrite (step_pending e p p' Hs).
  destruct e as [| | |[] r|index r].
  - right. tauto.
  - right. tauto.
  - rewrite elem_of_app, list_elem_of_singleton.
    intros [Hold | [=]]. by left.
  - right. split; [done|]. right; right. by exists r.
  - intros Hold%remove_first_elem. by left.
  - intros Hold%remove_first_elem. by left.
Qed.

(** X7: every detail fetch that is out was started for an index of at
    least 0. *)
Theorem requested_index_never_negative
    (html : document) (p : page) (i : Z) :
  reachable html p -> detail_fetch i ∈ pending p -> 0 <= i.
Proof.
  intros [evs Hrun]. revert i.
  apply (run_events_invariant any_event
           (fun q => (0 <= currentDatasetIndex q /\ 0 <= totalDatasets q) /\
                     forall i, detail_fetch i ∈ pending q -> 0 <= i))
    with (p' := p) in Hrun.
  - tauto.
  - intros e q q' _ Hs [Hb Hpend].
    pose proof (step_bounds e q q' Hs Hb) as Hb'.
    split; [done|]. intros i Hin.
    destruct (step_new_detail_fetch e q q' i Hs Hin)
      as [Hold | ->]; [by apply Hpend | tauto].
  - split; [simpl; lia|]. intros i. simpl.
    rewrite list_elem_of_singleton. by intros [=].
Qed.

(** X8: on a page that satisfies the invariant with index and total at
    least 0, an event that keeps the index covered starts detail fetches
    only for an index in range: at least 0 and below the total. *)
Theorem new_detail_fetch_in_range (e : event) (p p' : page) (i : Z) :
  navigator_invariant p ->
  0 <= currentDatasetIndex p -> 0 <= totalDatasets p ->
  covers_index e p = true ->
  step e p = Some p' ->
  detail_fetch i ∈ pending p' ->
  detail_fetch i ∈ pending p \/ 0 <= i < totalDatasets p'.
Proof.
  intros Hinv Hnn Htot Hcov Hs Hin.
  destruct (step_navigator_invariant e p p' Hcov Hs (conj Hinv Hnn))
    as [[Hpos Hzero] Hnn'].
  revert Hin. rewrite (step_pending e p p' Hs).
  pose proof (step_index e p p' Hs) as Hi.
  destruct e as [| | |[] r|index r].
  - case_bool_decide; [|by left].
    rewrite elem_of_app, list_elem_of_singleton.
    intros [Hin | [= ->]]; [by left | right].
    destruct (decide (totalDatasets p' > 0)); [lia|].
    destruct (step_navigator _ p p' Hs)
      as [[_ Ht] | [(_ & _ & Ht) | [(_ & _ & Ht) | (? & ? & ? & [=] & _)]]];
      destruct Hinv as [Hp Hz]; lia.
  - case_bool_decide; [|by left].
    rewrite elem_of_app, list_elem_of_singleton.
    intros [Hin | [= ->]]; [by left | right].
    destruct (step_navigator _ p p' Hs)
      as [[_ Ht] | [(_ & _ & Ht) | [(_ & _ & Ht) | (? & ? & ? & [=] & _)]]];
      lia.
  - rewrite elem_of_app, list_elem_of_singleton.
    intros [Hin | [=]]. by left.
  - rewrite elem_of_app. intros [Hin | Hin].
    + left. by eapply remove_first_elem.
    + case_bool_decide; [|by apply elem_of_nil in Hin].
      apply list_elem_of_singleton in Hin as [= ->]. right. lia.
  - intros Hin. left. by eapply remove_first_elem.
  - intros Hin. left. by eapply remove_first_elem.
Qed.

(** ** The controls against the index and the total *)

Lemma controls_in_sync_eq (p : page) :
  controls_in_sync p <->
  controls (dom p)
  = (if bool_decide (totalDatasets p > 0)
     then pretty (currentDatasetIndex p + 1) +:+ " / "
          +:+ pretty (totalDatasets p)
     else "0 / 0",
     bool_decide (currentDatasetIndex p <= 0),
     bool_decide (currentDatasetIndex p >= totalDatasets p - 1)).
Proof. unfold controls_in_sync, run. by rewrite updateControls_eq. Qed.

Lemma controls_in_sync_ext (p q : page) :
  currentDatasetIndex q = currentDatasetIndex p ->
  totalDatasets q = totalDatasets p ->
  controls (dom q) = controls (dom p) ->
  controls_in_sync p -> controls_in_sync q.
Proof.
  rewrite !controls_in_sync_eq. by intros -> -> ->.
Qed.

Lemma updateControls_in_sync (p : page) :
  controls_in_sync (run updateControls p).
Proof. apply controls_in_sync_eq. unfold run. by rewrite updateControls_eq. Qed.

Lemma initialize_resume_in_sync (p : page) :
  controls_in_sync (run initialize_resume p).
Proof. rewrite initialize_resume_eq. apply updateControls_in_sync. Qed.

Lemma step_controls_in_sync e (p p' : page) :
  step e p = Some p' -> accepted_empty_tick e = false ->
  controls_in_sync p -> controls_in_sync p'.
Proof.
  destruct e as [| | |b r|index r].
  - simpl. destruct (btnPrev_disabled (dom p)); [done|]. intros [= <-] _.
    unfold run at 1. destruct (decide (currentDatasetIndex p > 0)).
    + rewrite btnPrev_click_moves by done. intros _.
      apply (controls_in_sync_ext
               (run updateControls
                  (run (set_currentDatasetIndex (currentDatasetIndex p - 1))
                     p))); [done | done | done |].
      apply updateControls_in_sync.
    + by rewrite btnPrev_click_stays.
  - simpl. destruct (btnNext_disabled (dom p)); [done|]. intros [= <-] _.
    unfold run at 1.
    destruct (decide (currentDatasetIndex p < totalDatasets p - 1)).
    + rewrite btnNext_click_moves by done. intros _.
      apply (controls_in_sync_ext
               (run updateControls
                  (run (set_currentDatasetIndex (currentDatasetIndex p + 1))
                     p))); [done | done | done |].
      apply updateControls_in_sync.
    + by rewrite btnNext_click_stays.
  - intros [= <-] _. by apply controls_in_sync_ext.
  - intros [_ ->]%step_summary_eq Hne Hsync.
    destruct b; [apply initialize_resume_in_sync|].
    destruct (outcome_cases r) as [Hf | (status & l & -> & Hok)].
    + destruct (updateTemporalPlot_resume_failed_eq r
                  (resume_call (summary_fetch false) p) Hf) as [e ->].
      by apply (controls_in_sync_ext p).
    + destruct l as [|pt l]; [simpl in Hne; congruence|].
      unfold run at 1. rewrite updateTemporalPlot_resume_nonempty by done.
      apply updateControls_in_sync.
  - intros [_ ->]%step_detail_eq _.
    apply controls_in_sync_ext.
    + by rewrite updateDetailPlots_resume_index.
    + by rewrite updateDetailPlots_resume_total.
    + by rewrite updateDetailPlots_resume_controls.
Qed.

(** X9: once the summary that [initialize] awaits has been answered, the
    label and the two buttons agree with the index and the total, and
    they keep agreeing for as long as no timer summary comes back
    accepted and empty. *)
Theorem controls_stay_in_sync
    (r : fetch_outcome (list SummaryPoint)) (evs : list event)
    (p0 p1 p : page) :
  step (summary_arrives true r) p0 = Some p1 ->
  run_events no_empty_tick evs p1 = Some p ->
  controls_in_sync p.
Proof.
  intros [_ ->]%step_summary_eq Hrun.
  apply (run_events_invariant no_empty_tick controls_in_sync)
    with (p' := p) in Hrun; [done | | apply initialize_resume_in_sync].
  intros e q q' Hne Hs. apply step_controls_in_sync with e; [done|].
  unfold no_empty_tick in Hne. by apply negb_true_iff.
Qed.

(** X10: while the controls agree with the index and the total, the buttons
    are enabled exactly when a move is possible, and every click that
    is delivered moves the index by one. *)
Theorem click_moves_when_in_sync (p : page) :
  controls_in_sync p ->
  (is_Some (step click_btnNext p)
   <-> currentDatasetIndex p < totalDatasets p - 1) /\
  (is_Some (step click_btnPrev p) <-> currentDatasetIndex p > 0) /\
  (forall p', step click_btnNext p = Some p' ->
     currentDatasetIndex p' = currentDatasetIndex p + 1) /\
  (forall p', step click_btnPrev p = Some p' ->
     currentDatasetIndex p' = currentDatasetIndex p - 1).
Proof.
  intros Hsync%controls_in_sync_eq. unfold controls in Hsync.
  injection Hsync as _ Hprev Hnext. simpl. rewrite Hprev, Hnext. clear Hprev Hnext.
  repeat split.
  - case_bool_decide; [by intros [? [=]] | intros _; lia].
  - intros Hlt. rewrite bool_decide_eq_false_2 by lia. by eexists.
  - case_bool_decide; [by intros [? [=]] | intros _; lia].
  - intros Hgt. rewrite bool_decide_eq_false_2 by lia. by eexists.
  - intros p'. case_bool_decide; [done|]. intros [= <-].
    unfold run. by rewrite btnNext_click_moves by lia.
  - intros p'. case_bool_decide; [done|]. intros [= <-].
    unfold run. by rewrite btnPrev_click_moves by lia.
Qed.

(** ** Clicks in sequence *)

(** X11: next followed by previous comes back to the same index, with the
    controls as [updateControls] writes them for it, and leaves two
    detail fetches out: one for the next index, then one for the index
    itself. *)
Theorem next_then_previous (p : page) :
  0 <= currentDatasetIndex p ->
  currentDatasetIndex p < totalDatasets p - 1 ->
  let q := run btnPrev_click (run btnNext_click p) in
  currentDatasetIndex q = currentDatasetIndex p /\
  totalDatasets q = totalDatasets p /\
  controls (dom q) = controls (dom (run updateControls p)) /\
  pending q
  = pending p ++ [detail_fetch (currentDatasetIndex p + 1);
                  detail_fetch (currentDatasetIndex p)].
Proof.
  intros Hnn Hlt q. subst q.
  assert (run btnNext_click p
          = run (updateDetailPlots (currentDatasetIndex p + 1))
              (run updateControls
                 (run (set_currentDatasetIndex (currentDatasetIndex p + 1))
                    p))) as ->.
  { unfold run at 1. by rewrite btnNext_click_moves. }
  set (q := run (updateDetailPlots (currentDatasetIndex p + 1)) _).
  assert (run btnPrev_click q
          = run (updateDetailPlots (currentDatasetIndex q - 1))
              (run updateControls
                 (run (set_currentDatasetIndex (currentDatasetIndex q - 1))
                    q))) as ->.
  { unfold run at 1. rewrite btnPrev_click_moves; [done|].
    subst q. unfold run. rewrite updateControls_eq. cbn. lia. }
  subst q. unfold run. rewrite !updateControls_eq. cbn.
  replace (currentDatasetIndex p + 1 - 1) with (currentDatasetIndex p) by lia.
  repeat split. by rewrite <- app_assoc.
Qed.

(** X12: previous followed by next comes back to the same index when that
    index is below the total, and leaves two detail fetches out. *)
Theorem previous_then_next (p : page) :
  0 < currentDatasetIndex p < totalDatasets p ->
  let q := run btnNext_click (run btnPrev_click p) in
  currentDatasetIndex q = currentDatasetIndex p /\
  totalDatasets q = totalDatasets p /\
  controls (dom q) = controls (dom (run updateControls p)) /\
  pending q
  = pending p ++ [detail_fetch (currentDatasetIndex p - 1);
                  detail_fetch (currentDatasetIndex p)].
Proof.
  intros Hin q. subst q.
  assert (run btnPrev_click p
          = run (updateDetailPlots (currentDatasetIndex p - 1))
              (run updateControls
                 (run (set_currentDatasetIndex (currentDatasetIndex p - 1))
                    p))) as ->.
  { unfold run at 1. rewrite btnPrev_click_moves; [done|lia]. }
  set (q := run (updateDetailPlots (currentDatasetIndex p - 1)) _).
  assert (run btnNext_click q
          = run (updateDetailPlots (currentDatasetIndex q + 1))
              (run updateControls
                 (run (set_currentDatasetIndex (currentDatasetIndex q + 1))
                    q))) as ->.
  { unfold run at 1. rewrite btnNext_click_moves; [done|].
    subst q. unfold run. rewrite updateControls_eq. cbn. lia. }
  subst q. unfold run. rewrite !updateControls_eq. cbn.
  replace (currentDatasetIndex p - 1 + 1) with (currentDatasetIndex p) by lia.
  repeat split. by rewrite <- app_assoc.
Qed.

(** X13: next applied k times stops at the last index: the index becomes
    min(index + k, max(index, total-1)), that is min(index + k, total-1)
    on a page whose index is within total-1; the total stays. *)
Theorem repeated_next (k : nat) (p : page) :
  currentDatasetIndex (Nat.iter k (run btnNext_click) p)
  = Z.min (currentDatasetIndex p + Z.of_nat k)
          (Z.max (currentDatasetIndex p) (totalDatasets p - 1)) /\
  totalDatasets (Nat.iter k (run btnNext_click) p) = totalDatasets p.
Proof.
  induction k as [|k [IHi IHt]]; [simpl; lia|].
  rewrite Nat.iter_succ. set (q := Nat.iter k (run btnNext_click) p) in *.
  unfold run.
  destruct (decide (currentDatasetIndex q < totalDatasets q - 1)).
  - rewrite btnNext_click_moves by done.
    unfold run. rewrite updateControls_eq. cbn. clearbody q. lia.
  - rewrite btnNext_click_stays by done. cbn. clearbody q. lia.
Qed.

(** X14: previous applied k times stops at index 0: the index becomes
    max(index - k, min(index, 0)), that is max(index - k, 0) on a page
    whose index is at least 0; the total stays. *)
Theorem repeated_previous (k : nat) (p : page) :
  currentDatasetIndex (Nat.iter k (run btnPrev_click) p)
  = Z.max (currentDatasetIndex p - Z.of_nat k)
          (Z.min (currentDatasetIndex p) 0) /\
  totalDatasets (Nat.iter k (run btnPrev_click) p) = totalDatasets p.
Proof.
  induction k as [|k [IHi IHt]]; [simpl; lia|].
  rewrite Nat.iter_succ. set (q := Nat.iter k (run btnPrev_click) p) in *.
  unfold run.
  destruct (decide (currentDatasetIndex q > 0)).
  - rewrite btnPrev_click_moves by done.
    unfold run. rewrite updateControls_eq. cbn. clearbody q. lia.
  - rewrite btnPrev_click_stays by done. cbn. clearbody q. lia.
Qed.

(** ** What each event can change *)

(** X15: only a click changes the index, and by exactly one; only an
    accepted summary changes the total, to the length of its list. *)
Theorem navigator_changes (e : event) (p p' : page) :
  step e p = Some p' ->
  (currentDatasetIndex p' <> currentDatasetIndex p ->
   (e = click_btnPrev /\ currentDatasetIndex p' = currentDatasetIndex p - 1)
   \/
   (e = click_btnNext /\ currentDatasetIndex p' = currentDatasetIndex p + 1))
  /\
  (totalDatasets p' <> totalDatasets p ->
   exists b status l,
     e = summary_arrives b (resolved status (Some l)) /\
     response_ok status = true /\
     totalDatasets p' = Z.of_nat (length l)).
Proof.
  intros Hs. split.
  - rewrite (step_index e p p' Hs).
    destruct e; try done; case_bool_decide; try done; intros _; tauto.
  - destruct (step_navigator e p p' Hs)
      as [[_ ->] | [(_ & _ & ->) | [(_ & _ & ->)
          | (b & status & l & -> & Hok & _ & Ht)]]]; try done.
    intros _. by exists b, status, l.
Qed.

(** X16: in every reachable page the total is at least 0. *)
Theorem total_never_negative (html : document) (p : page) :
  reachable html p -> 0 <= totalDatasets p.
Proof.
  intros [evs Hrun].
  apply (run_events_invariant any_event
           (fun q => 0 <= currentDatasetIndex q /\ 0 <= totalDatasets q))
    with (p' := p) in Hrun.
  - tauto.
  - intros e q q' _ Hs. by apply step_bounds with e.
  - simpl. lia.
Qed.

Lemma updateControls_plots (p : page) :
  plots (dom (run updateControls p)) = plots (dom p).
Proof. unfold run. by rewrite updateControls_eq. Qed.

Lemma updateControls_detail_view (p : page) :
  detail_view (dom (run updateControls p)) = detail_view (dom p).
Proof. unfold run. by rewrite updateControls_eq. Qed.

Lemma updateTemporalPlot_resume_detail_view r (p : page) :
  detail_view (dom (run (updateTemporalPlot_resume r) p))
  = detail_view (dom p).
Proof.
  destruct (outcome_cases r) as [Hf | (status & l & -> & Hok)].
  - by destruct (updateTemporalPlot_resume_failed_eq r p Hf) as [e ->].
  - destruct l as [|pt l]; unfold run at 1.
    + by rewrite updateTemporalPlot_resume_empty.
    + rewrite updateTemporalPlot_resume_nonempty by done.
      cbn [snd]. unfold run. rewrite updateControls_eq.
      unfold detail_view. cbn.
      by rewrite !lookup_insert_ne by done.
Qed.

(** X17: the filename, the statistics and the five detail charts change only
    when an accepted detail answer arrives: a click moves the index and
    the label at once, the detail view follows only with the answer. *)
Theorem detail_view_changes_only_on_answer (e : event) (p p' : page) :
  step e p = Some p' -> accepted_detail e = false ->
  detail_view (dom p') = detail_view (dom p).
Proof.
  destruct e as [| | |b r|index r].
  - simpl. destruct (btnPrev_disabled (dom p)); [done|]. intros [= <-] _.
    unfold run. destruct (decide (currentDatasetIndex p > 0)).
    + by rewrite btnPrev_click_moves.
    + by rewrite btnPrev_click_stays.
  - simpl. destruct (btnNext_disabled (dom p)); [done|]. intros [= <-] _.
    unfold run.
    destruct (decide (currentDatasetIndex p < totalDatasets p - 1)).
    + by rewrite btnNext_click_moves.
    + by rewrite btnNext_click_stays.
  - by intros [= <-].
  - intros [_ ->]%step_summary_eq _.
    transitivity
      (detail_view (dom (run (updateTemporalPlot_resume r)
                           (resume_call (summary_fetch b) p)))).
    + destruct b; [|done].
      rewrite initialize_resume_eq, updateControls_detail_view.
      by case_bool_decide.
    + by rewrite updateTemporalPlot_resume_detail_view.
  - intros [_ ->]%step_detail_eq. simpl. intros Hf%negb_false_iff.
    apply fails_failed in Hf.
    by destruct (updateDetailPlots_resume_failed_eq index r
                   (resume_call (detail_fetch index) p) Hf) as [e ->].
Qed.

(** X18: the time-series chart changes only when an accepted summary with at
    least one dataset arrives. *)
Theorem temporal_plot_changes_only_on_summary (e : event) (p p' : page) :
  step e p = Some p' -> accepted_nonempty_summary e = false ->
  plots (dom p') !! "temporal-plot" = plots (dom p) !! "temporal-plot".
Proof.
  destruct e as [| | |b r|index r].
  - simpl. destruct (btnPrev_disabled (dom p)); [done|]. intros [= <-] _.
    unfold run. destruct (decide (currentDatasetIndex p > 0)).
    + by rewrite btnPrev_click_moves.
    + by rewrite btnPrev_click_stays.
  - simpl. destruct (btnNext_disabled (dom p)); [done|]. intros [= <-] _.
    unfold run.
    destruct (decide (currentDatasetIndex p < totalDatasets p - 1)).
    + by rewrite btnNext_click_moves.
    + by rewrite btnNext_click_stays.
  - by intros [= <-].
  - intros [_ ->]%step_summary_eq Hne.
    transitivity
      (plots (dom (run (updateTemporalPlot_resume r)
                     (resume_call (summary_fetch b) p)))
       !! "temporal-plot").
    + destruct b; [|done].
      rewrite initialize_resume_eq, updateControls_plots.
      by case_bool_decide.
    + destruct (outcome_cases r) as [Hf | (status & l & -> & Hok)].
      * by destruct (updateTemporalPlot_resume_failed_eq r
                       (resume_call (summary_fetch b) p) Hf) as [e ->].
      * destruct l as [|pt l]; [|simpl in Hne; congruence].
        unfold run. by rewrite updateTemporalPlot_resume_empty.
  - intros [_ ->]%step_detail_eq _.
    destruct (outcome_cases r) as [Hf | (status & d & -> & Hok)].
    + by destruct (updateDetailPlots_resume_failed_eq index r
                     (resume_call (detail_fetch index) p) Hf) as [e ->].
    + unfold run. rewrite updateDetailPlots_resume_ok_eq by done. cbn.
      by rewrite !lookup_insert_ne by done.
Qed.

(** ** Chart descriptors *)

(** X19: the time-series chart has two traces over the same timestamps, one
    point per dataset in the order of the summary: point i carries the
    timestamp of dataset i with its maximum, respectively its minimum. *)
Theorem temporal_traces_follow_summary (summaryData : list SummaryPoint) :
  exists x ymax ymin,
    fig_data (temporal_figure summaryData)
    = [scatter x ymax "Temp. Máxima"; scatter x ymin "Temp. Mínima"] /\
    length x = length summaryData /\
    length ymax = length summaryData /\
    length ymin = length summaryData /\
    forall (i : nat) d, summaryData !! i = Some d ->
      x !! i = Some (timestamp d) /\
      ymax !! i = Some (max_temp d) /\
      ymin !! i = Some (min_temp d).
Proof.
  exists (timestamp <$> summaryData), (max_temp <$> summaryData),
    (min_temp <$> summaryData).
  split; [done|]. rewrite !length_fmap.
  split; [done|]. split; [done|]. split; [done|].
  intros i d Hd. by rewrite !list_lookup_fmap, Hd.
Qed.

Lemma length_concat_rectangular (c : nat) (m : matrix) :
  rectangular c m -> length (concat m) = (length m * c)%nat.
Proof.
  induction 1 as [|row m Hrow _ IH]; [done|].
  cbn [concat length]. rewrite length_app, Hrow, IH. done.
Qed.

(** X20: the histogram is drawn over every cell of the temperature matrix:
    for a matrix of r rows of c entries it gets r * c samples. *)
Theorem histogram_has_every_cell (detailData : DetailRecord) (c : nat) :
  rectangular c (temperature (matrices detailData)) ->
  exists samples,
    fig_data (figure_histogram detailData) = [histogram samples] /\
    length samples
    = (length (temperature (matrices detailData)) * c)%nat /\
    forall row v,
      row ∈ temperature (matrices detailData) -> v ∈ row -> v ∈ samples.
Proof.
  intros Hrect. eexists. split; [done|].
  split; [by apply length_concat_rectangular|].
  intros row v Hrow Hv. apply list_elem_of_In, in_concat.
  exists row. split; by apply list_elem_of_In.
Qed.

(** ** Next, where it can run *)

Lemma next_disabled_beyond_total_ext (p q : page) :
  currentDatasetIndex q = currentDatasetIndex p ->
  totalDatasets q = totalDatasets p ->
  btnNext_disabled (dom q) = btnNext_disabled (dom p) ->
  next_disabled_beyond_total p -> next_disabled_beyond_total q.
Proof. unfold next_disabled_beyond_total. by intros -> -> ->. Qed.

Lemma updateControls_disables_next (p : page) :
  next_disabled_beyond_total (run updateControls p).
Proof.
  unfold next_disabled_beyond_total, run. rewrite updateControls_eq. cbn.
  intros Hge Hpos. apply bool_decide_eq_true_2. lia.
Qed.

Lemma step_next_disabled_beyond_total e (p p' : page) :
  step e p = Some p' ->
  next_disabled_beyond_total p -> next_disabled_beyond_total p'.
Proof.
  destruct e as [| | |b r|index r].
  - simpl. destruct (btnPrev_disabled (dom p)); [done|]. intros [= <-].
    unfold run at 1. destruct (decide (currentDatasetIndex p > 0)).
    + rewrite btnPrev_click_moves by done. intros _.
      apply (next_disabled_beyond_total_ext
               (run updateControls
                  (run (set_currentDatasetIndex (currentDatasetIndex p - 1))
                     p))); [done | done | done |].
      apply updateControls_disables_next.
    + by rewrite btnPrev_click_stays.
  - simpl. destruct (btnNext_disabled (dom p)); [done|]. intros [= <-].
    unfold run at 1.
    destruct (decide (currentDatasetIndex p < totalDatasets p - 1)).
    + rewrite btnNext_click_moves by done. intros _.
      apply (next_disabled_beyond_total_ext
               (run updateControls
                  (run (set_currentDatasetIndex (currentDatasetIndex p + 1))
                     p))); [done | done | done |].
      apply updateControls_disables_next.
    + by rewrite btnNext_click_stays.
  - intros [= <-]. by apply next_disabled_beyond_total_ext.
  - intros [_ ->]%step_summary_eq Hp.
    destruct b.
    { rewrite initialize_resume_eq. apply updateControls_disables_next. }
    destruct (outcome_cases r) as [Hf | (status & l & -> & Hok)].
    + destruct (updateTemporalPlot_resume_failed_eq r
                  (resume_call (summary_fetch false) p) Hf) as [e ->].
      by apply (next_disabled_beyond_total_ext p).
    + destruct l as [|pt l]; unfold run at 1.
      * rewrite updateTemporalPlot_resume_empty by done.
        unfold next_disabled_beyond_total. cbn. lia.
      * rewrite updateTemporalPlot_resume_nonempty by done.
        apply updateControls_disables_next.
  - intros [_ ->]%step_detail_eq.
    apply next_disabled_beyond_total_ext.
    + by rewrite updateDetailPlots_resume_index.
    + by rewrite updateDetailPlots_resume_total.
    + pose proof (updateDetailPlots_resume_controls index r
                    (resume_call (detail_fetch index) p)) as Hc.
      unfold controls in Hc. by injection Hc.
Qed.

Lemma reachable_next_disabled_beyond_total (html : document) (p : page) :
  reachable html p ->
  (0 <= currentDatasetIndex p /\ 0 <= totalDatasets p) /\
  next_disabled_beyond_total p.
Proof.
  intros [evs Hrun].
  apply (run_events_invariant any_event
           (fun q => (0 <= currentDatasetIndex q /\ 0 <= totalDatasets q) /\
                     next_disabled_beyond_total q))
    with (p' := p) in Hrun; [done | |].
  - intros e q q' _ Hs [Hb Hq]. split.
    + by apply step_bounds with e q.
    + by apply step_next_disabled_beyond_total with e q.
  - split; [simpl; lia|]. unfold next_disabled_beyond_total. simpl. lia.
Qed.

(** C4: on every page where the next operation applies, that is every
    page that satisfies the NavigatorState invariant with a total of at
    least 0, and every reachable page whose next button can be clicked,
    next increments the index by 1, redraws the controls and starts the
    detail fetch for the new index if and only if index < total-1;
    otherwise it does nothing, and it does nothing exactly when
    index = total-1 or total = 0. *)
Theorem next_moves_or_idles (html : document) (p : page) :
  (navigator_invariant p /\ 0 <= totalDatasets p) \/
  (reachable html p /\ btnNext_disabled (dom p) = false) ->
  let index := currentDatasetIndex p in
  let total := totalDatasets p in
  (index < total - 1 ->
   btnNext_click p = (inr tt, run btnNext_click p) /\
   currentDatasetIndex (run btnNext_click p) = index + 1 /\
   totalDatasets (run btnNext_click p) = total /\
   controls (dom (run btnNext_click p))
   = (pretty (index + 1 + 1) +:+ " / " +:+ pretty total,
      bool_decide (index + 1 <= 0),
      bool_decide (index + 1 >= total - 1)) /\
   pending (run btnNext_click p) = pending p ++ [detail_fetch (index + 1)]) /\
  (currentDatasetIndex (run btnNext_click p) = index + 1
   <-> index < total - 1) /\
  (~ index < total - 1 -> btnNext_click p = (inr tt, p)) /\
  (run btnNext_click p = p <-> index = total - 1 \/ total = 0).
Proof.
  intros Hdom index total. subst index total.
  assert (0 <= currentDatasetIndex p /\ 0 <= totalDatasets p /\
          (currentDatasetIndex p >= totalDatasets p - 1
           <-> currentDatasetIndex p = totalDatasets p - 1
               \/ totalDatasets p = 0)) as (Hi & Ht & Hlast).
  { destruct Hdom as [[[Hpos Hzero] Htot] | [Hreach Hen]].
    - lia.
    - destruct (reachable_next_disabled_beyond_total html p Hreach)
        as [[Hi Ht] Hblock].
      unfold next_disabled_beyond_total in Hblock. rewrite Hen in Hblock.
      split; [done|]. split; [done|].
      destruct (decide (currentDatasetIndex p >= totalDatasets p));
        [|lia].
      destruct (decide (totalDatasets p >= 1)); [|lia].
      by specialize (Hblock ltac:(done) ltac:(done)). }
  destruct (btnNext_click_spec p) as (Hmove & Hstay & Hnoop & _).
  split; [|split; [|split]].
  - intros Hlt. destruct (Hmove Hlt) as (Hr & Hidx & Htot & Hc & Hp).
    rewrite Hc, bool_decide_eq_true_2 by lia. done.
  - split.
    + intros Heq. destruct (decide (currentDatasetIndex p
                                    < totalDatasets p - 1)); [done|].
      unfold run in Heq. rewrite Hstay in Heq by done. simpl in Heq. lia.
    + intros Hlt. by destruct (Hmove Hlt) as (_ & Hidx & _).
  - exact Hstay.
  - by rewrite Hnoop.
Qed.

End Dashboard.

Arguments rejected {A}.
Arguments resolved {A} status body.
Arguments currentDatasetIndex {number} p.
Arguments totalDatasets {number} p.
Arguments dom {number} p.
Arguments console {number} p.
Arguments pending {number} p.
Arguments counterEl {number} d.
Arguments btnPrev_disabled {number} d.
Arguments btnNext_disabled {number} d.
Arguments filenameEl {number} d.
Arguments stats_min {number} d.
Arguments stats_max {number} d.
Arguments stats_avg {number} d.
Arguments plots {number} d.
Arguments figure_2d {number} detailData.
Arguments controls {number} d.
Arguments navigator_invariant {number} p.
Arguments summary_arrives {number} from_initialize r.
Arguments detail_arrives {number} index r.
Arguments click_btnPrev {number}.
Arguments click_btnNext {number}.
Arguments interval_fires {number}.
Arguments run {number A} m p.
Arguments step {number} toFixed e p.
Arguments run_events {number} toFixed allowed evs p.
Arguments any_event {number} e p.
Arguments covers_index {number} e p.
Arguments reachable {number} toFixed html p.
Arguments boot {number} html.
Arguments shows {number} toFixed d detailData.
Arguments updateControls {number}.
Arguments btnPrev_click {number}.
Arguments btnNext_click {number}.
Arguments updateTemporalPlot_resume {number} r.
Arguments updateDetailPlots_resume {number} toFixed index r.
Arguments temporal_figure {number} summaryData.
Arguments sample_summary {number} x n.
Arguments sample_detail {number} name x.
Arguments detail_view {number} d.
Arguments controls_in_sync {number} p.
Arguments failed_answer {number} e.
Arguments accepted_detail {number} e.
Arguments accepted_nonempty_summary {number} e.
Arguments no_empty_tick {number} e p.
Arguments rectangular {number} c m.
Arguments figure_histogram {number} detailData.
Arguments temperature {number} m.
Arguments matrices {number} d.

(** * Concrete runs

    Payload numbers are integers here and the page starts from a blank
    document. *)

(** Five datasets, three clicks on next, the answer for index 3, and
    the answers for indexes 0 and 1 in between; the fetch for index 2 is
    still out. *)
Local Abbreviation browse_to_3 :=
  [summary_arrives true (ok (sample_summary 20 5));
   detail_arrives 0 (ok (sample_detail "capture_0" 20));
   click_btnNext;
   detail_arrives 1 (ok (sample_detail "capture_1" 21));
   click_btnNext;
   click_btnNext;
   detail_arrives 3 (ok (sample_detail "capture_3" 23))].

(** Five datasets, four clicks on next, and the timer. *)
Local Abbreviation browse_to_4 :=
  [summary_arrives true (ok (sample_summary 20 5));
   click_btnNext; click_btnNext; click_btnNext; click_btnNext;
   interval_fires].

(** Five datasets, two clicks on next, and the timer. *)
Local Abbreviation browse_to_2 :=
  [summary_arrives true (ok (sample_summary 20 5));
   click_btnNext; click_btnNext;
   interval_fires].

(** Three datasets, then five: the total only grows. *)
Local Abbreviation growing_run :=
  [summary_arrives true (ok (sample_summary 20 3));
   click_btnNext; click_btnNext; interval_fires;
   summary_arrives false (ok (sample_summary 20 5));
   click_btnNext; click_btnPrev].

(** C1, counterexample: index 4 of 5, then a summary of 3 datasets:
    the page is at index 4 with total 3. *)
Lemma invariant_broken_by_shorter_summary :
  exists p : page Z,
    run_events integer_toFixed any_event
      (browse_to_4 ++ [summary_arrives false (ok (sample_summary 20 3))])
      (boot (blank_document Z))
    = Some p /\
    currentDatasetIndex p = 4 /\ totalDatasets p = 3 /\
    ~ navigator_invariant p.
Proof.
  eexists. split; [vm_compute; reflexivity|].
  split; [reflexivity|]. split; [reflexivity|].
  unfold navigator_invariant. cbn. lia.
Qed.

(** A run with three datasets, then five, keeps the invariant. *)
Lemma navigator_invariant_while_covered_witness :
  exists p : page Z,
    run_events integer_toFixed covers_index growing_run (boot (blank_document Z))
    = Some p /\
    navigator_invariant p.
Proof.
  eexists. split; [vm_compute; reflexivity|].
  apply (navigator_invariant_while_covered Z integer_toFixed
           (blank_document Z) growing_run).
  vm_compute; reflexivity.
Defined.

(** C2, counterexample: at index 4 of 5 a summary of 3 datasets leaves
    the index at 4, not at max(3-1, 0) = 2. *)
Lemma summary_does_not_clamp :
  exists p p' : page Z,
    run_events integer_toFixed any_event browse_to_4 (boot (blank_document Z))
    = Some p /\
    currentDatasetIndex p = 4 /\ totalDatasets p = 5 /\
    step integer_toFixed
      (summary_arrives false (ok (sample_summary 20 3))) p = Some p' /\
    totalDatasets p' = 3 /\
    currentDatasetIndex p' = 4 /\
    currentDatasetIndex p' <> Z.max (3 - 1) 0.
Proof.
  eexists. eexists. split; [vm_compute; reflexivity|].
  split; [reflexivity|]. split; [reflexivity|].
  split; [vm_compute; reflexivity|].
  split; [reflexivity|]. split; [reflexivity|]. cbn. lia.
Qed.

(** At index 4 of 5, a summary of three datasets. *)
Lemma summary_sets_total_keeps_index_witness :
  response_ok 200 = true /\
  let p : page Z :=
    {| currentDatasetIndex := 4; totalDatasets := 5;
       dom := blank_document Z; console := []; pending := [] |} in
  let p' := run (updateTemporalPlot_resume (ok (sample_summary 20 3))) p in
  totalDatasets p' = 3 /\ currentDatasetIndex p' = 4.
Proof.
  split; [reflexivity|].
  apply (summary_sets_total_keeps_index Z
           {| currentDatasetIndex := 4; totalDatasets := 5;
              dom := blank_document Z; console := []; pending := [] |}
           200 (sample_summary 20 3)).
  reflexivity.
Defined.

(** C3, counterexample: the fetch for index 2 is out, the user is at
    index 3 and sees capture_3; the answer for index 2 arrives and the
    page, still at index 3, shows capture_2. *)
Lemma late_detail_answer_overwrites :
  exists p p' : page Z,
    run_events integer_toFixed any_event browse_to_3 (boot (blank_document Z))
    = Some p /\
    currentDatasetIndex p = 3 /\
    detail_fetch 2 ∈ pending p /\
    filenameEl (dom p) = "capture_3" /\
    step integer_toFixed
      (detail_arrives 2 (ok (sample_detail "capture_2" 22))) p = Some p' /\
    currentDatasetIndex p' = 3 /\
    filenameEl (dom p') = "capture_2" /\
    stats_max (dom p') = "22.00 °C" /\
    plots (dom p') !! "plot-2d"
    = Some (figure_2d (sample_detail "capture_2" 22)).
Proof.
  eexists. eexists. split; [vm_compute; reflexivity|].
  split; [reflexivity|]. split; [by apply list_elem_of_here|].
  split; [reflexivity|]. split; [vm_compute; reflexivity|].
  split; [reflexivity|]. split; [reflexivity|].
  split; [reflexivity|]. vm_compute. reflexivity.
Qed.

(** At index 3, with the fetch for index 2 still out. *)
Lemma detail_answer_drawn_on_arrival_witness :
  let p : page Z :=
    {| currentDatasetIndex := 3; totalDatasets := 5;
       dom := blank_document Z; console := [];
       pending := [detail_fetch 2] |} in
  response_ok 200 = true /\
  detail_fetch 2 ∈ pending p /\
  exists p',
    step integer_toFixed
      (detail_arrives 2 (resolved 200 (Some (sample_detail "capture_2" 22)))) p
    = Some p' /\
    shows integer_toFixed (dom p') (sample_detail "capture_2" 22) /\
    currentDatasetIndex p' = 3 /\
    totalDatasets p' = 5 /\
    controls (dom p') = controls (dom p).
Proof.
  intros p. split; [reflexivity|]. split; [apply list_elem_of_here|].
  apply (detail_answer_drawn_on_arrival Z integer_toFixed p 2 200
           (sample_detail "capture_2" 22)).
  - reflexivity.
  - apply list_elem_of_here.
Defined.

(** Previous at index 0 of 1 does nothing. *)
Lemma btnPrev_click_spec_witness :
  let p : page Z :=
    {| currentDatasetIndex := 0; totalDatasets := 1;
       dom := blank_document Z; console := []; pending := [] |} in
  0 <= currentDatasetIndex p /\
  btnPrev_click p = (inr tt, p) /\
  (run btnPrev_click p = p <-> currentDatasetIndex p = 0).
Proof.
  intros p. split; [cbn; lia|].
  destruct (btnPrev_click_spec Z p) as (_ & Hstay & Hiff); [cbn; lia|].
  split; [apply Hstay; cbn; lia | exact Hiff].
Defined.

(** C6, counterexample: the label is written with a space on each side
    of the slash, so it is neither "0/0" at total 0 nor "3/5" at index 2
    of 5. *)
Lemma label_is_spaced :
  totalDatasets (boot (blank_document Z)) = 0 /\
  counterEl (dom (run updateControls (boot (blank_document Z)))) = "0 / 0" /\
  counterEl (dom (run updateControls (boot (blank_document Z)))) <> "0/0" /\
  exists p : page Z,
    run_events integer_toFixed any_event browse_to_2 (boot (blank_document Z))
    = Some p /\
    currentDatasetIndex p = 2 /\ totalDatasets p = 5 /\
    counterEl (dom (run updateControls p)) = "3 / 5" /\
    counterEl (dom (run updateControls p))
    <> pretty (2 + 1) +:+ "/" +:+ pretty 5.
Proof.
  split; [reflexivity|]. split; [reflexivity|]. split; [discriminate|].
  eexists. split; [vm_compute; reflexivity|].
  split; [reflexivity|]. split; [reflexivity|].
  split; [vm_compute; reflexivity|]. vm_compute. discriminate.
Qed.

(** The controls at index 3 of 5. *)
Lemma updateControls_spec_witness :
  let p : page Z :=
    {| currentDatasetIndex := 3; totalDatasets := 5;
       dom := blank_document Z; console := []; pending := [] |} in
  totalDatasets p > 0 /\
  counterEl (dom (run updateControls p)) = "4 / 5" /\
  btnPrev_disabled (dom (run updateControls p)) = false /\
  btnNext_disabled (dom (run updateControls p)) = false.
Proof.
  intros p. split; [cbn; lia|].
  destruct (updateControls_spec Z p) as (Hlabel & _ & Hprev & Hnext & _).
  split; [exact (Hlabel ltac:(cbn; lia))|].
  split; [apply Hprev; cbn; lia | apply Hnext; cbn; lia].
Defined.

(** A summary answered with status 503. *)
Lemma updateTemporalPlot_failure_witness :
  let p : page Z :=
    {| currentDatasetIndex := 2; totalDatasets := 5;
       dom := blank_document Z; console := []; pending := [] |} in
  let r : fetch_outcome (list (SummaryPoint Z)) := resolved 503 None in
  failed r /\
  exists error,
    updateTemporalPlot_resume r p =
    (inr tt,
     {| currentDatasetIndex := 2; totalDatasets := 5;
        dom := blank_document Z;
        console := [("Error en updateTemporalPlot:", error)];
        pending := [] |}).
Proof.
  intros p r. split; [by left|].
  apply (updateTemporalPlot_failure Z p r). by left.
Defined.

(** A detail fetch for an index out of range, answered with status 404. *)
Lemma updateDetailPlots_failure_witness :
  let p : page Z :=
    {| currentDatasetIndex := 4; totalDatasets := 3;
       dom := blank_document Z; console := []; pending := [] |} in
  let r : fetch_outcome (DetailRecord Z) := resolved 404 None in
  failed r /\
  exists error,
    updateDetailPlots_resume integer_toFixed 4 r p =
    (inr tt,
     {| currentDatasetIndex := 4; totalDatasets := 3;
        dom := blank_document Z;
        console := [("Error en updateDetailPlots:", error)];
        pending := [] |}).
Proof.
  intros p r. split; [by left|].
  apply (updateDetailPlots_failure Z integer_toFixed p 4 r). by left.
Defined.

(** C9, counterexample: at index 2 of 5 the timer's summary comes back
    empty: the total is 0, but the label still reads "3 / 5", both
    buttons stay enabled and the chart is still the one of the five
    datasets, not one drawn from the empty list. *)
Lemma empty_summary_leaves_chart_and_controls :
  exists p p' : page Z,
    run_events integer_toFixed any_event browse_to_2 (boot (blank_document Z))
    = Some p /\
    step integer_toFixed (summary_arrives false (ok [])) p = Some p' /\
    totalDatasets p' = 0 /\
    counterEl (dom p') = "3 / 5" /\
    counterEl (dom p') <> "0 / 0" /\
    btnPrev_disabled (dom p') = false /\
    btnNext_disabled (dom p') = false /\
    plots (dom p') !! "temporal-plot"
    = Some (temporal_figure (sample_summary 20 5)) /\
    plots (dom p') !! "temporal-plot" <> Some (temporal_figure []).
Proof.
  eexists. eexists. split; [vm_compute; reflexivity|].
  split; [vm_compute; reflexivity|].
  split; [reflexivity|]. split; [reflexivity|]. split; [discriminate|].
  split; [reflexivity|]. split; [reflexivity|].
  split; [vm_compute; reflexivity|]. vm_compute. discriminate.
Qed.

(** At index 1 of 2, a summary of three datasets. *)
Lemma summary_answer_spec_witness :
  let p : page Z :=
    {| currentDatasetIndex := 1; totalDatasets := 2;
       dom := blank_document Z; console := []; pending := [] |} in
  let p' := run (updateTemporalPlot_resume (ok (sample_summary 20 3))) p in
  response_ok 200 = true /\
  totalDatasets p' = 3 /\
  plots (dom p') !! "temporal-plot"
  = Some (temporal_figure (sample_summary 20 3)) /\
  controls (dom p') = ("2 / 3", false, false).
Proof.
  intros p p'. split; [reflexivity|].
  destruct (summary_answer_spec Z integer_toFixed p 200 (sample_summary 20 3))
    as (Ht & Hdraw & _); [reflexivity|].
  split; [exact Ht|]. apply Hdraw. discriminate.
Defined.

(** The index after the run that ends at index 4 with total 3. *)
Lemma index_never_negative_witness :
  exists p : page Z,
    run_events integer_toFixed any_event
      (browse_to_4 ++ [summary_arrives false (ok (sample_summary 20 3))])
      (boot (blank_document Z))
    = Some p /\
    0 <= currentDatasetIndex p.
Proof.
  eexists. split; [vm_compute; reflexivity|].
  apply (index_never_negative Z integer_toFixed (blank_document Z)).
  exists (browse_to_4 ++ [summary_arrives false (ok (sample_summary 20 3))]).
  vm_compute; reflexivity.
Defined.

(** * Concrete runs for the further properties *)

(** Startup with three datasets. *)
Lemma startup_with_datasets_witness :
  response_ok 200 = true /\
  sample_summary (20 : Z) 3 <> [] /\
  exists q : page Z,
    step integer_toFixed
      (summary_arrives true (resolved 200 (Some (sample_summary 20 3))))
      (boot (blank_document Z)) = Some q /\
    currentDatasetIndex q = 0 /\
    totalDatasets q = 3 /\
    plots (dom q) !! "temporal-plot"
    = Some (temporal_figure (sample_summary 20 3)) /\
    controls (dom q) = ("1 / 3", true, false) /\
    console q = [] /\
    pending q = [detail_fetch 0].
Proof.
  split; [reflexivity|]. split; [discriminate|].
  apply (startup_with_datasets Z integer_toFixed (blank_document Z) 200
           (sample_summary 20 3)); [reflexivity | discriminate].
Defined.

(** Startup with the data API down. *)
Lemma startup_failed_witness :
  failed (rejected : fetch_outcome (list (SummaryPoint Z))) /\
  exists (q : page Z) error,
    step integer_toFixed (summary_arrives true rejected)
      (boot (blank_document Z)) = Some q /\
    currentDatasetIndex q = 0 /\ totalDatasets q = 0 /\
    controls (dom q) = ("0 / 0", true, true) /\
    plots (dom q) = plots (blank_document Z) /\
    detail_view (dom q) = detail_view (blank_document Z) /\
    console q = [("Error en updateTemporalPlot:", error)] /\
    pending q = [].
Proof.
  split; [exact I|].
  apply (startup_failed Z integer_toFixed (blank_document Z) rejected).
  exact I.
Defined.

(** At index 3 showing capture_3, the timer's summary of two datasets
    arrives. *)
Lemma tick_answer_leaves_detail_witness :
  exists p p' : page Z,
    run_events integer_toFixed any_event (browse_to_3 ++ [interval_fires])
      (boot (blank_document Z)) = Some p /\
    step integer_toFixed
      (summary_arrives false (ok (sample_summary 20 2))) p = Some p' /\
    pending p' = remove_first (summary_fetch false) (pending p) /\
    currentDatasetIndex p' = currentDatasetIndex p /\
    detail_view (dom p') = detail_view (dom p).
Proof.
  eexists. eexists. split; [vm_compute; reflexivity|].
  split; [vm_compute; reflexivity|].
  apply (tick_answer_leaves_detail Z integer_toFixed
           (ok (sample_summary 20 2))).
  vm_compute; reflexivity.
Defined.

(** A run with one failed summary and one failed detail fetch. *)
Local Abbreviation run_with_failures :=
  [summary_arrives true (ok (sample_summary 20 3));
   detail_arrives 0 (resolved 500 None);
   click_btnNext;
   interval_fires;
   summary_arrives false rejected;
   detail_arrives 1 (ok (sample_detail "capture_1" 21))].

Lemma console_counts_failed_answers_witness :
  exists p : page Z,
    run_events integer_toFixed any_event run_with_failures
      (boot (blank_document Z)) = Some p /\
    length (console p) = 2%nat.
Proof.
  eexists. split; [vm_compute; reflexivity|].
  apply (console_counts_failed_answers Z integer_toFixed (blank_document Z)
           run_with_failures).
  vm_compute; reflexivity.
Defined.

(** Next at index 2 of 5, after the timer has fired. *)
Lemma detail_fetch_is_for_current_index_witness :
  exists p p' : page Z,
    run_events integer_toFixed any_event browse_to_2
      (boot (blank_document Z)) = Some p /\
    step integer_toFixed click_btnNext p = Some p' /\
    detail_fetch 3 ∈ pending p' /\
    (detail_fetch 3 ∈ pending p \/
     (3 = currentDatasetIndex p' /\
      ((click_btnNext : event Z) = click_btnPrev \/
       (click_btnNext : event Z) = click_btnNext \/
       exists r, (click_btnNext : event Z) = summary_arrives true r))).
Proof.
  eexists. eexists. split; [vm_compute; reflexivity|].
  split; [vm_compute; reflexivity|].
  match goal with |- _ ∈ pending ?p' /\ (_ ∈ pending ?p \/ _) =>
    assert (detail_fetch 3 ∈ pending p') as Hin
      by (cbn; do 4 apply list_elem_of_further; apply list_elem_of_here);
    split; [exact Hin|];
    apply (detail_fetch_is_for_current_index Z integer_toFixed click_btnNext
             p p' 3); [vm_compute; reflexivity | exact Hin]
  end.
Defined.

Lemma requested_index_never_negative_witness :
  exists p : page Z,
    run_events integer_toFixed any_event browse_to_2
      (boot (blank_document Z)) = Some p /\
    detail_fetch 2 ∈ pending p /\ 0 <= 2.
Proof.
  eexists. split; [vm_compute; reflexivity|].
  match goal with |- _ ∈ pending ?p /\ _ =>
    assert (detail_fetch 2 ∈ pending p) as Hin
      by (cbn; do 2 apply list_elem_of_further; apply list_elem_of_here);
    split; [exact Hin|];
    apply (requested_index_never_negative Z integer_toFixed
             (blank_document Z) p 2); [|exact Hin]
  end.
  exists browse_to_2. vm_compute; reflexivity.
Defined.

(** Previous at index 2 of 5. *)
Lemma new_detail_fetch_in_range_witness :
  let p : page Z :=
    {| currentDatasetIndex := 2; totalDatasets := 5;
       dom := blank_document Z; console := []; pending := [] |} in
  navigator_invariant p /\
  0 <= currentDatasetIndex p /\ 0 <= totalDatasets p /\
  covers_index click_btnPrev p = true /\
  step integer_toFixed click_btnPrev p = Some (run btnPrev_click p) /\
  detail_fetch 1 ∈ pending (run btnPrev_click p) /\
  (detail_fetch 1 ∈ pending p \/ 0 <= 1 < totalDatasets (run btnPrev_click p)).
Proof.
  intros p.
  assert (navigator_invariant p) as Hinv.
  { unfold navigator_invariant. cbn. lia. }
  assert (detail_fetch 1 ∈ pending (run btnPrev_click p)) as Hin.
  { apply list_elem_of_here. }
  split; [exact Hinv|]. split; [cbn; lia|]. split; [cbn; lia|].
  split; [reflexivity|]. split; [reflexivity|]. split; [exact Hin|].
  apply (new_detail_fetch_in_range Z integer_toFixed click_btnPrev p
           (run btnPrev_click p) 1);
    [exact Hinv | cbn; lia | cbn; lia | reflexivity | reflexivity | exact Hin].
Defined.

(** Startup with five datasets, then clicks, the timer and answers. *)
Lemma controls_stay_in_sync_witness :
  exists p1 p : page Z,
    step integer_toFixed (summary_arrives true (ok (sample_summary 20 5)))
      (boot (blank_document Z)) = Some p1 /\
    run_events integer_toFixed no_empty_tick
      [click_btnNext; click_btnNext; interval_fires;
       summary_arrives false (ok (sample_summary 20 3));
       detail_arrives 2 (resolved 404 None); click_btnPrev]
      p1 = Some p /\
    controls (dom p) = ("2 / 3", false, false) /\
    controls_in_sync p.
Proof.
  eexists. eexists. split; [vm_compute; reflexivity|].
  split; [vm_compute; reflexivity|]. split; [reflexivity|].
  eapply (controls_stay_in_sync Z integer_toFixed
            (ok (sample_summary 20 5))
            [click_btnNext; click_btnNext; interval_fires;
             summary_arrives false (ok (sample_summary 20 3));
             detail_arrives 2 (resolved 404 None); click_btnPrev]
            (boot (blank_document Z))).
  - vm_compute; reflexivity.
  - vm_compute; reflexivity.
Defined.

(** At index 4 of 5 with the controls in sync: next is disabled,
    previous is enabled. *)
Lemma click_moves_when_in_sync_witness :
  exists p : page Z,
    run_events integer_toFixed any_event browse_to_4
      (boot (blank_document Z)) = Some p /\
    controls_in_sync p /\
    ~ is_Some (step integer_toFixed click_btnNext p) /\
    is_Some (step integer_toFixed click_btnPrev p).
Proof.
  eexists. split; [vm_compute; reflexivity|].
  match goal with |- controls_in_sync ?p /\ _ =>
    assert (controls_in_sync p) as Hsync by (vm_compute; reflexivity);
    destruct (click_moves_when_in_sync Z integer_toFixed p Hsync)
      as (Hnext & Hprev & _)
  end.
  split; [exact Hsync|]. split.
  - intros Hsome. apply Hnext in Hsome. cbn in Hsome. lia.
  - apply Hprev. cbn. lia.
Defined.

Lemma next_then_previous_witness :
  let p : page Z :=
    {| currentDatasetIndex := 2; totalDatasets := 5;
       dom := blank_document Z; console := []; pending := [] |} in
  let q := run btnPrev_click (run btnNext_click p) in
  0 <= currentDatasetIndex p /\
  currentDatasetIndex p < totalDatasets p - 1 /\
  currentDatasetIndex q = 2 /\
  totalDatasets q = 5 /\
  controls (dom q) = ("3 / 5", false, false) /\
  pending q = [detail_fetch 3; detail_fetch 2].
Proof.
  intros p q. split; [cbn; lia|]. split; [cbn; lia|].
  apply (next_then_previous Z p); cbn; lia.
Defined.

Lemma previous_then_next_witness :
  let p : page Z :=
    {| currentDatasetIndex := 2; totalDatasets := 5;
       dom := blank_document Z; console := []; pending := [] |} in
  let q := run btnNext_click (run btnPrev_click p) in
  0 < currentDatasetIndex p < totalDatasets p /\
  currentDatasetIndex q = 2 /\
  totalDatasets q = 5 /\
  controls (dom q) = ("3 / 5", false, false) /\
  pending q = [detail_fetch 1; detail_fetch 2].
Proof.
  intros p q. split; [cbn; lia|].
  apply (previous_then_next Z p); cbn; lia.
Defined.

(** The summary of three datasets at index 4 of 5 changes the total. *)
Lemma navigator_changes_witness :
  exists p p' : page Z,
    run_events integer_toFixed any_event browse_to_4
      (boot (blank_document Z)) = Some p /\
    step integer_toFixed
      (summary_arrives false (ok (sample_summary 20 3))) p = Some p' /\
    totalDatasets p' <> totalDatasets p /\
    exists b status l,
      summary_arrives false (ok (sample_summary 20 3))
      = summary_arrives b (resolved status (Some l)) /\
      response_ok status = true /\
      totalDatasets p' = Z.of_nat (length l).
Proof.
  eexists. eexists. split; [vm_compute; reflexivity|].
  split; [vm_compute; reflexivity|].
  match goal with |- totalDatasets ?p' <> totalDatasets ?p /\ _ =>
    destruct (navigator_changes Z integer_toFixed
                (summary_arrives false (ok (sample_summary 20 3))) p p')
      as [_ Htotal]; [vm_compute; reflexivity|];
    assert (totalDatasets p' <> totalDatasets p) as Hne by (cbn; lia)
  end.
  split; [exact Hne | exact (Htotal Hne)].
Defined.

Lemma total_never_negative_witness :
  exists p : page Z,
    run_events integer_toFixed any_event
      (browse_to_4 ++ [summary_arrives false (ok [])])
      (boot (blank_document Z)) = Some p /\
    0 <= totalDatasets p.
Proof.
  eexists. split; [vm_compute; reflexivity|].
  apply (total_never_negative Z integer_toFixed (blank_document Z)).
  exists (browse_to_4 ++ [summary_arrives false (ok [])]).
  vm_compute; reflexivity.
Defined.

(** At index 3 showing capture_3, previous is clicked: the label moves,
    the detail view does not. *)
Lemma detail_view_changes_only_on_answer_witness :
  exists p p' : page Z,
    run_events integer_toFixed any_event browse_to_3
      (boot (blank_document Z)) = Some p /\
    step integer_toFixed click_btnPrev p = Some p' /\
    accepted_detail (click_btnPrev : event Z) = false /\
    counterEl (dom p') = "3 / 5" /\
    filenameEl (dom p') = "capture_3" /\
    detail_view (dom p') = detail_view (dom p).
Proof.
  eexists. eexists. split; [vm_compute; reflexivity|].
  split; [vm_compute; reflexivity|]. split; [reflexivity|].
  split; [reflexivity|]. split; [reflexivity|].
  apply (detail_view_changes_only_on_answer Z integer_toFixed click_btnPrev);
    [vm_compute; reflexivity | reflexivity].
Defined.

(** At index 2 of 5, an empty summary arrives for the timer. *)
Lemma temporal_plot_changes_only_on_summary_witness :
  exists p p' : page Z,
    run_events integer_toFixed any_event browse_to_2
      (boot (blank_document Z)) = Some p /\
    step integer_toFixed (summary_arrives false (ok [])) p = Some p' /\
    accepted_nonempty_summary
      (summary_arrives false (ok ([] : list (SummaryPoint Z)))) = false /\
    plots (dom p') !! "temporal-plot" = plots (dom p) !! "temporal-plot".
Proof.
  eexists. eexists. split; [vm_compute; reflexivity|].
  split; [vm_compute; reflexivity|]. split; [reflexivity|].
  apply (temporal_plot_changes_only_on_summary Z integer_toFixed
           (summary_arrives false (ok [])));
    [vm_compute; reflexivity | reflexivity].
Defined.

(** A record whose temperature matrix has two rows of three entries. *)
Lemma histogram_has_every_cell_witness :
  let d : DetailRecord Z :=
    {| filename := "capture_0";
       stats := {| min := 1; max := 6; avg := 3 |};
       matrices := {| temperature := [[1; 2; 3]; [4; 5; 6]];
                      gradient_magnitude := []; hot_roi := [] |} |} in
  rectangular 3 (temperature (matrices d)) /\
  exists samples,
    fig_data Z (figure_histogram d) = [histogram Z samples] /\
    length samples = 6%nat /\
    forall row v, row ∈ temperature (matrices d) -> v ∈ row -> v ∈ samples.
Proof.
  intros d.
  assert (rectangular 3 (temperature (matrices d))) as Hrect.
  { repeat constructor. }
  split; [exact Hrect|].
  apply (histogram_has_every_cell Z d 3 Hrect).
Defined.

(** Next at index 2 of 5, reached by two clicks from startup. *)
Lemma next_moves_or_idles_witness :
  exists p : page Z,
    run_events integer_toFixed any_event browse_to_2
      (boot (blank_document Z)) = Some p /\
    btnNext_disabled (dom p) = false /\
    currentDatasetIndex p < totalDatasets p - 1 /\
    currentDatasetIndex (run btnNext_click p) = 3 /\
    controls (dom (run btnNext_click p)) = ("4 / 5", false, false) /\
    (run btnNext_click p = p
     <-> currentDatasetIndex p = totalDatasets p - 1 \/ totalDatasets p = 0).
Proof.
  eexists. split; [vm_compute; reflexivity|].
  split; [reflexivity|]. split; [cbn; lia|].
  match goal with |- currentDatasetIndex (run btnNext_click ?p) = _ /\ _ =>
    assert (reachable integer_toFixed (blank_document Z) p) as Hreach
      by (exists browse_to_2; vm_compute; reflexivity);
    pose proof (next_moves_or_idles Z integer_toFixed (blank_document Z) p
                  (or_intror (conj Hreach eq_refl))) as Hnext
  end.
  cbv zeta in Hnext.
  split; [apply Hnext; vm_compute; reflexivity|].
  split; [apply Hnext; vm_compute; reflexivity | apply Hnext].
Defined.
